(** * get_kokkai_session_list: a shallow embedding and its properties

    The script [get_kokkai_session_list.py] pages through the meeting-list
    API of the National Diet Library, reduces the meeting records to one
    date range per Diet session and writes the ranges to a TSV file.

    The embedding follows the script function by function
    ([parse_arguments], [fetch_meeting_records], [aggregate_sessions],
    [write_tsv], [main]).  Python exceptions are values of [exn] carried by
    the [result] monad; the network is a function from the query of a
    request to what [requests.get] does with it; the [while True] loop of
    the fetcher runs on fuel, and its run records every request it issued;
    the file system is a list of paths with their contents. *)

From Stdlib Require Import ZArith List Bool Ascii String Lia.
From Stdlib Require Import Sorted Permutation DecimalString.
Import ListNotations.
Local Open Scope string_scope.
Local Open Scope Z_scope.
Set Warnings "-register-all".

(** ** Exceptions and the error monad *)

(** The exceptions that can leave a function of the script.  The first four
    are raised by the script's own [raise] statements, the others by the
    library calls it makes. *)
Inductive exn : Type :=
| RuntimeError_http_status (status_code : Z)  (* fetch_meeting_records, line 43 *)
| ValueError_meetingRecord_missing            (* fetch_meeting_records, line 47 *)
| ValueError_meetingRecord_not_list           (* fetch_meeting_records, line 50 *)
| ValueError_session_or_date_missing          (* aggregate_sessions, line 67 *)
| RequestException      (* requests.get: timeout, connection failure *)
| JSONDecodeError       (* Response.json() on a body that is not JSON *)
| TypeError             (* [in], subscript, int(), fromisoformat on a wrong type *)
| KeyError              (* subscript of a dict by a key it does not have *)
| ValueError_int        (* int() on a string that is no integer literal, or on nan *)
| OverflowError         (* int() on an infinity; date arithmetic out of range *)
| ValueError_isoformat  (* datetime.date.fromisoformat on a bad string *)
| OSError.              (* open() *)

Inductive result (A : Type) : Type :=
| Ok (a : A)
| Raise (e : exn).
Arguments Ok {A} a.
Arguments Raise {A} e.

Definition bind {A B : Type} (r : result A) (k : A -> result B) : result B :=
  match r with
  | Ok a => k a
  | Raise e => Raise e
  end.

Notation "x <- r ;; k" := (bind r (fun x => k))
  (at level 61, r at next level, right associativity).

(** What the caller of a function sees of its value: the value when it
    returned, nothing when it raised. *)
Definition returned {A : Type} (r : result A) : option A :=
  match r with Ok a => Some a | Raise _ => None end.

(** The two error categories of the script's own checks. *)
Definition is_transport_error (e : exn) : bool :=
  match e with
  | RuntimeError_http_status _ | RequestException => true
  | _ => false
  end.

Definition is_response_shape_error (e : exn) : bool :=
  match e with
  | ValueError_meetingRecord_missing
  | ValueError_meetingRecord_not_list
  | ValueError_session_or_date_missing => true
  | _ => false
  end.

(** ** Python values

    [json] is the Python value that [Response.json()] builds.  A [dict] is
    the list of its items, looked up from the front.  A float is kept as
    what [int()] makes of it, the only operation the script can apply to
    one. *)
Inductive pyfloat : Type :=
| Finite (truncated : Z)
| NaN
| Infinity.

Inductive json : Type :=
| JNull
| JBool (b : bool)
| JInt (n : Z)
| JFloat (f : pyfloat)
| JStr (s : string)
| JList (items : list json)
| JObj (members : list (string * json)).

Fixpoint dict_lookup {V : Type} (pszKey : string) (members : list (string * V))
  : option V :=
  match members with
  | [] => None
  | (k, v) :: rest => if String.eqb k pszKey then Some v else dict_lookup pszKey rest
  end.

Definition is_substring (needle hay : string) : bool :=
  match String.index 0 needle hay with
  | Some _ => true
  | None => false
  end.

Definition json_is_str (pszKey : string) (v : json) : bool :=
  match v with
  | JStr s => String.eqb s pszKey
  | _ => false
  end.

(** [pszKey in v] for a string [pszKey]: key membership in a dict, element
    membership in a list, substring test in a string, [TypeError] on a
    value that is not a container. *)
Definition py_contains (pszKey : string) (v : json) : result bool :=
  match v with
  | JObj members =>
      Ok (match dict_lookup pszKey members with Some _ => true | None => false end)
  | JList items => Ok (existsb (json_is_str pszKey) items)
  | JStr s => Ok (is_substring pszKey s)
  | JNull | JBool _ | JInt _ | JFloat _ => Raise TypeError
  end.

(** [v[pszKey]] for a string [pszKey], at the places where the script has
    already checked [pszKey in v]: only a dict can be subscripted by a
    string. *)
Definition py_getitem (v : json) (pszKey : string) : result json :=
  match v with
  | JObj members =>
      match dict_lookup pszKey members with
      | Some x => Ok x
      | None => Raise KeyError
      end
  | _ => Raise TypeError
  end.

(** *** [int()]

    Strings are strings of bytes that hold ASCII text.  On them the
    literal grammar is the one of [int(str)] in base 10: the blanks tab,
    line feed, vertical tab, form feed, carriage return and space around,
    an optional sign, and digits that single underscores may separate, no
    more than [int_max_str_digits] digits in all (the default limit of the
    interpreter on the conversion of a string).

    What is left out: [int()] also reads the decimal digits and the blanks
    of Unicode outside ASCII (the full-width digits, for one), which are
    refused here, and an interpreter from before the limit existed, or
    started with another limit, reads longer literals.  So where
    [int_of_str] gives a number, [int()] gives that number; where it gives
    nothing, [int()] raises on ASCII text under the default limit, and may
    still return otherwise. *)
Definition is_py_space (c : ascii) : bool :=
  let n := nat_of_ascii c in
  (((9 <=? n) && (n <=? 13)) || (n =? 32))%nat.

Definition int_max_str_digits : Z := 4300.

Definition digit_of (c : ascii) : option Z :=
  let n := Z.of_nat (nat_of_ascii c) in
  if (48 <=? n) && (n <=? 57) then Some (n - 48) else None.

Fixpoint lstrip (l : list ascii) : list ascii :=
  match l with
  | c :: rest => if is_py_space c then lstrip rest else l
  | [] => []
  end.

Definition strip (l : list ascii) : list ascii :=
  rev (lstrip (rev (lstrip l))).

Definition underscore : ascii := ascii_of_nat 95.
Definition plus_sign : ascii := ascii_of_nat 43.
Definition minus_sign : ascii := ascii_of_nat 45.

(** [fAfterDigit] tells that the previous character was a digit: an
    underscore is accepted only there, and the literal must end there. *)
Fixpoint int_digits (l : list ascii) (acc : Z) (fAfterDigit : bool) : option Z :=
  match l with
  | [] => if fAfterDigit then Some acc else None
  | c :: rest =>
      match digit_of c with
      | Some d => int_digits rest (10 * acc + d) true
      | None =>
          if Ascii.eqb c underscore && fAfterDigit
          then int_digits rest acc false
          else None
      end
  end.

Definition is_digit (c : ascii) : bool :=
  match digit_of c with Some _ => true | None => false end.

(** The number of digits of a literal: underscores, sign and blanks do not
    count. *)
Definition count_digits (l : list ascii) : Z :=
  Z.of_nat (List.length (filter is_digit l)).

Definition int_of_str (s : string) : option Z :=
  let l := strip (list_ascii_of_string s) in
  if int_max_str_digits <? count_digits l then None
  else
    match l with
    | c :: rest =>
        if Ascii.eqb c minus_sign then option_map Z.opp (int_digits rest 0 false)
        else if Ascii.eqb c plus_sign then int_digits rest 0 false
        else int_digits (c :: rest) 0 false
    | [] => None
    end.

Definition py_int (v : json) : result Z :=
  match v with
  | JInt n => Ok n
  | JBool b => Ok (if b then 1 else 0)
  | JFloat (Finite t) => Ok t
  | JFloat NaN => Raise ValueError_int
  | JFloat Infinity => Raise OverflowError
  | JStr s =>
      match int_of_str s with
      | Some n => Ok n
      | None => Raise ValueError_int
      end
  | JNull | JList _ | JObj _ => Raise TypeError
  end.

(** [str(n)] for an int. *)
Definition py_str_int (n : Z) : string := NilZero.string_of_int (Z.to_int n).

(** ** [datetime.date] *)

Record date : Type := mkdate { year : Z; month : Z; day : Z }.

Definition is_leap (y : Z) : bool :=
  (y mod 4 =? 0) && (negb (y mod 100 =? 0) || (y mod 400 =? 0)).

Definition days_in_month (y m : Z) : Z :=
  if m =? 2 then (if is_leap y then 29 else 28)
  else if (m =? 4) || (m =? 6) || (m =? 9) || (m =? 11) then 30
  else 31.

(** The triples that are dates: [date.min] is 0001-01-01 and [date.max] is
    9999-12-31. *)
Definition valid_date (d : date) : bool :=
  (1 <=? year d) && (year d <=? 9999) &&
  (1 <=? month d) && (month d <=? 12) &&
  (1 <=? day d) && (day d <=? days_in_month (year d) (month d)).

(** [a < b] on dates: the order of the triples (year, month, day). *)
Definition date_ltb (a b : date) : bool :=
  (year a <? year b) ||
  ((year a =? year b) &&
   ((month a <? month b) || ((month a =? month b) && (day a <? day b)))).

Definition date_lt (a b : date) : Prop := date_ltb a b = true.
Definition date_le (a b : date) : Prop := date_ltb b a = false.

Definition digit_char (n : Z) : ascii := ascii_of_nat (Z.to_nat (48 + n mod 10)).

(** [d.isoformat()]: the pattern YYYY-MM-DD. *)
Definition isoformat (d : date) : string :=
  string_of_list_ascii
    [digit_char (year d / 1000); digit_char (year d / 100);
     digit_char (year d / 10); digit_char (year d);
     minus_sign;
     digit_char (month d / 10); digit_char (month d);
     minus_sign;
     digit_char (day d / 10); digit_char (day d)].

Definition number2 (a b : ascii) : option Z :=
  match digit_of a, digit_of b with
  | Some x, Some y => Some (10 * x + y)
  | _, _ => None
  end.

Definition number4 (a b c d : ascii) : option Z :=
  match number2 a b, number2 c d with
  | Some x, Some y => Some (100 * x + y)
  | _, _ => None
  end.

(** The string part of [datetime.date.fromisoformat]: exactly YYYY-MM-DD
    naming a date of the calendar, the format every version of the library
    reads, with the date every version gives.

    What is left out: from Python 3.11 on the library also reads the basic
    and the week-date spellings of ISO 8601 (20230123, 2023-W03-1,
    2023W031), strings of 7, 8 or 10 characters, which are refused here.
    So where [date_of_isoformat] gives a date, the library gives that
    date; where it gives nothing, the library raises up to Python 3.10,
    and from 3.11 on may return for a string in one of those other
    spellings. *)
Definition date_of_isoformat (s : string) : option date :=
  match list_ascii_of_string s with
  | [y1; y2; y3; y4; s1; m1; m2; s2; d1; d2] =>
      if Ascii.eqb s1 minus_sign && Ascii.eqb s2 minus_sign then
        match number4 y1 y2 y3 y4, number2 m1 m2, number2 d1 d2 with
        | Some y, Some m, Some d =>
            let x := mkdate y m d in
            if valid_date x then Some x else None
        | _, _, _ => None
        end
      else None
  | _ => None
  end.

Definition fromisoformat_str (s : string) : result date :=
  match date_of_isoformat s with
  | Some d => Ok d
  | None => Raise ValueError_isoformat
  end.

(** [datetime.date.fromisoformat(v)]: a [TypeError] unless [v] is a str. *)
Definition fromisoformat (v : json) : result date :=
  match v with
  | JStr s => fromisoformat_str s
  | _ => Raise TypeError
  end.

(** The day before [d], or nothing before [date.min]. *)
Definition previous_day (d : date) : option date :=
  if 1 <? day d then Some (mkdate (year d) (month d) (day d - 1))
  else if 1 <? month d
       then Some (mkdate (year d) (month d - 1) (days_in_month (year d) (month d - 1)))
       else if 1 <? year d then Some (mkdate (year d - 1) 12 31)
            else None.

(** [d - datetime.timedelta(days=n)]. *)
Fixpoint date_minus_days (n : nat) (d : date) : result date :=
  match n with
  | O => Ok d
  | S k =>
      match previous_day d with
      | Some p => date_minus_days k p
      | None => Raise OverflowError
      end
  end.

(** ** The network and the file system *)

(** The query of one request ([objParams]). *)
Record request_params : Type := mkparams {
  nameOfMeeting : string;
  startDate : string;
  endDate : string;
  maximumRecords : Z;
  recordPosition : Z;
  recordPacking : string
}.

(** What the script reads of a response: its status and what [.json()]
    does on its body. *)
Record response : Type := mkresponse {
  status_code : Z;
  json_body : option json   (* [None]: [.json()] raises, the body is not JSON *)
}.

(** [requests.get(pszApiUrl, params=objParams, timeout=30)] during one run:
    a response, or [None] for an exception of [requests] (time-out, no
    connection).  The script never sends the same query twice in a run
    (the offsets it sends grow), so a function of the query stands for any
    server. *)
Definition network : Type := request_params -> option response.

Definition requests_get (net : network) (q : request_params) : result response :=
  match net q with
  | Some objResponse => Ok objResponse
  | None => Raise RequestException
  end.

Definition response_json (objResponse : response) : result json :=
  match json_body objResponse with
  | Some objJson => Ok objJson
  | None => Raise JSONDecodeError
  end.

(** A run of code that talks to the network: the requests it issued, oldest
    first, and how it ended; [None] when the fuel ran out with the loop
    still going. *)
Record run (A : Type) : Type := mkrun {
  sent : list request_params;
  outcome : option (result A)
}.
Arguments mkrun {A} sent outcome.
Arguments sent {A} r.
Arguments outcome {A} r.

(** The file system: the files with their contents, and the paths that
    [open(path, "w")] can open. *)
Record file_system : Type := mkfs {
  fs_files : list (string * string);
  fs_writable : string -> bool
}.

Definition fs_read (pszPath : string) (fs : file_system) : option string :=
  dict_lookup pszPath (fs_files fs).

(** Replacing the contents of a file, or creating it. *)
Definition fs_store (pszPath pszContents : string) (fs : file_system) : file_system :=
  mkfs ((pszPath, pszContents)
          :: filter (fun f => negb (String.eqb (fst f) pszPath)) (fs_files fs))
       (fs_writable fs).

(** ** [fetch_meeting_records] *)

Definition pszApiUrl : string := "https://kokkai.ndl.go.jp/api/meeting_list".
Definition iMaximumRecords : Z := 100.

Definition objParams (pszStartDate pszEndDate : string) (iRecordPosition : Z)
  : request_params :=
  {| nameOfMeeting := "本会議";
     startDate := pszStartDate;
     endDate := pszEndDate;
     maximumRecords := iMaximumRecords;
     recordPosition := iRecordPosition;
     recordPacking := "json" |}.

(** Lines 42 to 50: from the response to [objListPageRecords]. *)
Definition page_records (objResponse : response) : result (list json) :=
  if negb (status_code objResponse =? 200)
  then Raise (RuntimeError_http_status (status_code objResponse))
  else
    objJson <- response_json objResponse ;;
    fPresent <- py_contains "meetingRecord" objJson ;;
    if negb fPresent then Raise ValueError_meetingRecord_missing
    else
      objListPageRecords <- py_getitem objJson "meetingRecord" ;;
      match objListPageRecords with
      | JList items => Ok items
      | _ => Raise ValueError_meetingRecord_not_list
      end.

(** Lines 33 to 50: one request and the checks of its response. *)
Definition fetch_page (net : network) (pszStartDate pszEndDate : string)
    (iRecordPosition : Z) : result (list json) :=
  objResponse <- requests_get net (objParams pszStartDate pszEndDate iRecordPosition) ;;
  page_records objResponse.

(** The [while True] loop, one iteration per unit of fuel. *)
Fixpoint fetch_loop (fuel : nat) (net : network) (pszStartDate pszEndDate : string)
    (iRecordPosition : Z) (objListMeetingRecord : list json) : run (list json) :=
  match fuel with
  | O => mkrun [] None
  | S fuel' =>
      let q := objParams pszStartDate pszEndDate iRecordPosition in
      match fetch_page net pszStartDate pszEndDate iRecordPosition with
      | Raise e => mkrun [q] (Some (Raise e))
      | Ok [] => mkrun [q] (Some (Ok objListMeetingRecord))
      | Ok objListPageRecords =>
          let rest :=
            fetch_loop fuel' net pszStartDate pszEndDate
              (iRecordPosition + iMaximumRecords)
              (objListMeetingRecord ++ objListPageRecords) in
          mkrun (q :: sent rest) (outcome rest)
      end
  end.

Definition fetch_meeting_records (fuel : nat) (net : network)
    (pszStartDate pszEndDate : string) : run (list json) :=
  fetch_loop fuel net pszStartDate pszEndDate 1 [].

(** ** [aggregate_sessions] *)

Record date_range : Type := mkrange {
  objStartDate : date;
  objEndDate : date
}.

(** [objSessionDateMap]: a dict from int to a range, as the list of its
    items in insertion order. *)
Definition session_date_map : Type := list (Z * date_range).

Fixpoint map_lookup (iSession : Z) (m : session_date_map) : option date_range :=
  match m with
  | [] => None
  | (k, r) :: rest => if k =? iSession then Some r else map_lookup iSession rest
  end.

(** Storing under a key: a key of the dict keeps its place, a new key goes
    to the end. *)
Fixpoint map_store (iSession : Z) (r : date_range) (m : session_date_map)
  : session_date_map :=
  match m with
  | [] => [(iSession, r)]
  | (k, r0) :: rest =>
      if k =? iSession then (k, r) :: rest
      else (k, r0) :: map_store iSession r rest
  end.

(** Lines 79 to 82: the two updates of a range that is already there. *)
Definition widen (objMeetingDate : date) (r : date_range) : date_range :=
  let r1 := if date_ltb objMeetingDate (objStartDate r)
            then mkrange objMeetingDate (objEndDate r) else r in
  if date_ltb (objEndDate r1) objMeetingDate
  then mkrange (objStartDate r1) objMeetingDate else r1.

(** Lines 73 to 82. *)
Definition record_date (iSession : Z) (objMeetingDate : date)
    (objSessionDateMap : session_date_map) : session_date_map :=
  match map_lookup iSession objSessionDateMap with
  | None =>
      map_store iSession (mkrange objMeetingDate objMeetingDate) objSessionDateMap
  | Some r => map_store iSession (widen objMeetingDate r) objSessionDateMap
  end.

(** Lines 66 to 71: the session number and the date of a record. *)
Definition read_record (objMeetingRecord : json) : result (Z * date) :=
  fSession <- py_contains "session" objMeetingRecord ;;
  fMissing <- (if negb fSession then Ok true
               else fDate <- py_contains "date" objMeetingRecord ;; Ok (negb fDate)) ;;
  if (fMissing : bool) then Raise ValueError_session_or_date_missing
  else
    vSession <- py_getitem objMeetingRecord "session" ;;
    iSession <- py_int vSession ;;
    pszMeetingDate <- py_getitem objMeetingRecord "date" ;;
    objMeetingDate <- fromisoformat pszMeetingDate ;;
    Ok (iSession, objMeetingDate).

(** The first loop, lines 65 to 82. *)
Fixpoint aggregate_loop (objListMeetingRecord : list json)
    (objSessionDateMap : session_date_map) : result session_date_map :=
  match objListMeetingRecord with
  | [] => Ok objSessionDateMap
  | objMeetingRecord :: rest =>
      x <- read_record objMeetingRecord ;;
      aggregate_loop rest (record_date (fst x) (snd x) objSessionDateMap)
  end.

(** An item of the returned list. *)
Record session_row : Type := mkrow {
  iSession : Z;
  pszStartDate : string;
  pszEndDate : string
}.

Definition session_entry (item : Z * date_range) : session_row :=
  {| iSession := fst item;
     pszStartDate := isoformat (objStartDate (snd item));
     pszEndDate := isoformat (objEndDate (snd item)) |}.

(** [sorted(l, key=lambda objItem: objItem["iSession"], reverse=True)]: a
    stable sort, greatest key first; items of equal keys keep their
    order. *)
Fixpoint insert_desc (x : session_row) (l : list session_row) : list session_row :=
  match l with
  | [] => [x]
  | y :: rest =>
      if iSession x <? iSession y then y :: insert_desc x rest
      else x :: y :: rest
  end.

Fixpoint sorted_desc (l : list session_row) : list session_row :=
  match l with
  | [] => []
  | x :: rest => insert_desc x (sorted_desc rest)
  end.

Definition aggregate_sessions (objListMeetingRecord : list json)
  : result (list session_row) :=
  objSessionDateMap <- aggregate_loop objListMeetingRecord [] ;;
  Ok (sorted_desc (map session_entry objSessionDateMap)).

(** ** [write_tsv] *)

Definition tab : ascii := ascii_of_nat 9.
Definition line_feed : ascii := ascii_of_nat 10.
Definition carriage_return : ascii := ascii_of_nat 13.
Definition double_quote : ascii := ascii_of_nat 34.

Definition is_csv_special (c : ascii) : bool :=
  Ascii.eqb c tab || Ascii.eqb c double_quote ||
  Ascii.eqb c carriage_return || Ascii.eqb c line_feed.

Fixpoint csv_escape (l : list ascii) : list ascii :=
  match l with
  | [] => []
  | c :: rest =>
      if Ascii.eqb c double_quote then c :: c :: csv_escape rest
      else c :: csv_escape rest
  end.

(** A field under [csv.QUOTE_MINIMAL] with the tab as delimiter: quoted
    only when it holds the delimiter, a quote or a character of the line
    terminator. *)
Definition csv_field (s : string) : list ascii :=
  let l := list_ascii_of_string s in
  if existsb is_csv_special l
  then double_quote :: csv_escape l ++ [double_quote]
  else l.

Fixpoint csv_join (fields : list (list ascii)) : list ascii :=
  match fields with
  | [] => []
  | [f] => f
  | f :: rest => f ++ tab :: csv_join rest
  end.

(** [objWriter.writerow(fields)]: the line it writes, ended by the
    writer's terminator CR LF ([newline=""] leaves it as it is). *)
Definition writerow (fields : list string) : string :=
  string_of_list_ascii
    (csv_join (map csv_field fields) ++ [carriage_return; line_feed]).

Definition header_row : list string := ["session"; "start_date"; "end_date"].

Definition data_row (objSession : session_row) : list string :=
  [py_str_int (iSession objSession); pszStartDate objSession; pszEndDate objSession].

Definition tsv_text (objListSession : list session_row) : string :=
  writerow header_row ++ String.concat EmptyString (map (fun r => writerow (data_row r)) objListSession).

(** The file system after the call, and how the call ended.

    What is left out: a file is the spelling of its path (two spellings of
    one file are two files here), and a call either writes the whole text
    or, when [open] fails, nothing.  A write that fails after [open] has
    truncated the file, leaving it short or empty behind an [OSError], has
    no counterpart; [fs_writable] stands for a path on which the whole
    call goes through. *)
Definition write_tsv (objListSession : list session_row) (pszOutputPath : string)
    (fs : file_system) : file_system * result unit :=
  if fs_writable fs pszOutputPath
  then (fs_store pszOutputPath (tsv_text objListSession) fs, Ok tt)
  else (fs, Raise OSError).

(** ** [parse_arguments] and [main] *)

(** [x or pszDefault] for an optional string [x]: [None] and the empty
    string are false. *)
Definition py_or (x : option string) (pszDefault : string) : string :=
  match x with
  | Some (String c rest) => String c rest
  | Some EmptyString | None => pszDefault
  end.

(** [pszStartDateArg] and [pszEndDateArg] are [objArgs.pszStartDate] and
    [objArgs.pszEndDate], [objToday] is [datetime.date.today()]. *)
Definition parse_arguments (pszStartDateArg pszEndDateArg : option string)
    (objToday : date) : result (date * date) :=
  objDefaultStartDate <- date_minus_days 30 objToday ;;
  let pszStartDate := py_or pszStartDateArg (isoformat objDefaultStartDate) in
  let pszEndDate := py_or pszEndDateArg (isoformat objToday) in
  objStartDate <- fromisoformat_str pszStartDate ;;
  objEndDate <- fromisoformat_str pszEndDate ;;
  Ok (objStartDate, objEndDate).

Definition pszOutputFile : string := "kokkai_session_list.tsv".

(** A run of the whole script: the requests it issued, the file system it
    leaves, and how it ended. *)
Record script_run : Type := mkscript {
  script_sent : list request_params;
  script_fs : file_system;
  script_outcome : option (result unit)
}.

Definition main (pszStartDateArg pszEndDateArg : option string) (objToday : date)
    (fuel : nat) (net : network) (fs : file_system) : script_run :=
  match parse_arguments pszStartDateArg pszEndDateArg objToday with
  | Raise e => mkscript [] fs (Some (Raise e))
  | Ok (objStartDate, objEndDate) =>
      let fetched :=
        fetch_meeting_records fuel net (isoformat objStartDate) (isoformat objEndDate) in
      match outcome fetched with
      | None => mkscript (sent fetched) fs None
      | Some (Raise e) => mkscript (sent fetched) fs (Some (Raise e))
      | Some (Ok objListMeetingRecord) =>
          match aggregate_sessions objListMeetingRecord with
          | Raise e => mkscript (sent fetched) fs (Some (Raise e))
          | Ok objListSession =>
              let written := write_tsv objListSession pszOutputFile fs in
              mkscript (sent fetched) (fst written) (Some (snd written))
          end
      end
  end.

(** ** Vocabulary of the properties *)

(** A record with the two fields the aggregation reads. *)
Definition meeting (session date : json) : json :=
  JObj [("session", session); ("date", date)].

(** The records of a list read one after the other, as the first loop of
    [aggregate_sessions] reads them: the first failure is the failure of
    the whole. *)
Fixpoint read_records (l : list json) : result (list (Z * date)) :=
  match l with
  | [] => Ok []
  | objMeetingRecord :: rest =>
      x <- read_record objMeetingRecord ;;
      xs <- read_records rest ;;
      Ok (x :: xs)
  end.

Definition record_all (xs : list (Z * date)) (m : session_date_map)
  : session_date_map :=
  fold_left (fun acc x => record_date (fst x) (snd x) acc) xs m.

(** [d] is the date of a record of [l] whose session number is [k]. *)
Definition session_date (l : list json) (k : Z) (d : date) : Prop :=
  exists objMeetingRecord,
    In objMeetingRecord l /\ read_record objMeetingRecord = Ok (k, d).

(** The record [objMeetingRecord] is an object whose ["session"] is, for
    [int()], the number [k], and whose ["date"] is the text of the date
    [d]. *)
Definition record_session_date (objMeetingRecord : json) (k : Z) (d : date) : Prop :=
  exists members vSession pszDate,
    objMeetingRecord = JObj members /\
    dict_lookup "session" members = Some vSession /\
    dict_lookup "date" members = Some (JStr pszDate) /\
    py_int vSession = Ok k /\
    date_of_isoformat pszDate = Some d.


(** A record whose two fields hold what the aggregation reads: a session
    that [int()] accepts and a date that [date.fromisoformat] accepts. *)
Definition readable_record (objMeetingRecord : json) : Prop :=
  exists members vSession vDate iSession objMeetingDate,
    objMeetingRecord = JObj members /\
    dict_lookup "session" members = Some vSession /\
    dict_lookup "date" members = Some vDate /\
    py_int vSession = Ok iSession /\
    fromisoformat vDate = Ok objMeetingDate.

(** [m] holds, for the pairs [xs] of a session number and a date, one range
    per session number, from the least to the greatest of its dates. *)
Definition summarises (xs : list (Z * date)) (m : session_date_map) : Prop :=
  NoDup (map fst m) /\
  forall k,
    match map_lookup k m with
    | None => forall d, ~ In (k, d) xs
    | Some r =>
        In (k, objStartDate r) xs /\ In (k, objEndDate r) xs /\
        forall d, In (k, d) xs ->
                  date_le (objStartDate r) d /\ date_le d (objEndDate r)
    end.

(** [rows] holds exactly one item per session number of the records [l],
    from the least to the greatest date of the records of that session. *)
Definition one_range_per_session (l : list json) (rows : list session_row) : Prop :=
  NoDup (map iSession rows) /\
  (forall k,
      In k (map iSession rows) <->
      exists objMeetingRecord d,
        In objMeetingRecord l /\ record_session_date objMeetingRecord k d) /\
  forall row, In row rows ->
    exists dStart dEnd,
      pszStartDate row = isoformat dStart /\
      pszEndDate row = isoformat dEnd /\
      (exists objMeetingRecord,
          In objMeetingRecord l /\
          record_session_date objMeetingRecord (iSession row) dStart) /\
      (exists objMeetingRecord,
          In objMeetingRecord l /\
          record_session_date objMeetingRecord (iSession row) dEnd) /\
      forall objMeetingRecord d,
        In objMeetingRecord l ->
        record_session_date objMeetingRecord (iSession row) d ->
        date_le dStart d /\ date_le d dEnd.

(** Greatest session number first, no number twice. *)
Definition strictly_descending (rows : list session_row) : Prop :=
  StronglySorted (fun a b => iSession b < iSession a) rows.

(** The offset of the request number [i], counted from 0. *)
Definition offset (i : nat) : Z := 1 + iMaximumRecords * Z.of_nat i.

(** The request number [i] is answered by a 200 whose JSON object holds the
    list [p] under ["meetingRecord"]. *)
Definition delivers (net : network) (pszStartDate pszEndDate : string)
    (i : nat) (p : list json) : Prop :=
  exists members,
    net (objParams pszStartDate pszEndDate (offset i))
    = Some (mkresponse 200 (Some (JObj members))) /\
    dict_lookup "meetingRecord" members = Some (JList p).

(** The first requests are answered by the pages [pages], none of them
    empty. *)
Definition serves (net : network) (pszStartDate pszEndDate : string)
    (pages : list (list json)) : Prop :=
  forall i p, nth_error pages i = Some p ->
              delivers net pszStartDate pszEndDate i p /\ p <> [].

(** The queries of the first [n] requests. *)
Definition queries (pszStartDate pszEndDate : string) (n : nat)
  : list request_params :=
  map (fun i => objParams pszStartDate pszEndDate (offset i)) (seq 0 n).

Definition is_2xx (status : Z) : bool := (200 <=? status) && (status <=? 299).

(** The text of a file that holds the header row and nothing else. *)
Definition header_line : string :=
  string_of_list_ascii
    (list_ascii_of_string "session" ++ tab
       :: list_ascii_of_string "start_date" ++ tab
       :: list_ascii_of_string "end_date" ++ [carriage_return; line_feed])%list.

(** ** Sample inputs *)

Definition scenario_records : list json :=
  [meeting (JInt 210) (JStr "2023-01-23");
   meeting (JInt 210) (JStr "2023-06-21");
   meeting (JInt 211) (JStr "2023-10-20")].


Definition page_json (p : list json) : json := JObj [("meetingRecord", JList p)].

(** A server with a single record, at the first offset. *)
Definition net_single_record : network :=
  fun q =>
    Some (mkresponse 200
            (Some (page_json (if recordPosition q <=? 1
                              then [meeting (JInt 210) (JStr "2023-01-23")]
                              else [])))).

(** A server behind a transforming proxy: it answers 203 Non-Authoritative
    Information, with a page in the body. *)
Definition net_non_authoritative : network :=
  fun _ => Some (mkresponse 203
                   (Some (page_json [meeting (JInt 210) (JStr "2023-01-23")]))).

(** A server that answers 500. *)
Definition net_server_error : network :=
  fun _ => Some (mkresponse 500 None).

(** A server with no record at all. *)
Definition net_empty : network :=
  fun _ => Some (mkresponse 200 (Some (page_json []))).

Definition fs_empty : file_system := mkfs [] (fun _ => true).

(** A server whose JSON has no ["meetingRecord"]. *)
Definition net_no_meetingRecord : network :=
  fun _ => Some (mkresponse 200 (Some (JObj [("message", JStr "no records")]))).

(** A server whose ["meetingRecord"] is a string. *)
Definition net_meetingRecord_str : network :=
  fun _ => Some (mkresponse 200 (Some (JObj [("meetingRecord", JStr "none")]))).

(** A server with a single record, which has no ["date"]. *)
Definition net_record_without_date : network :=
  fun q =>
    Some (mkresponse 200
            (Some (page_json (if recordPosition q <=? 1
                              then [JObj [("session", JInt 210)]]
                              else [])))).

Definition today_sample : date := mkdate 2026 11 4.

(** A server whose second answer never comes: the request times out. *)
Definition net_timeout_second : network :=
  fun q =>
    if recordPosition q <=? 1
    then Some (mkresponse 200 (Some (page_json [meeting (JInt 210) (JStr "2023-01-23")])))
    else None.

(** A server that answers 200 with a body that is not JSON. *)
Definition net_not_json : network :=
  fun _ => Some (mkresponse 200 None).

(** A server that answers 200 with the JSON value [null]. *)
Definition net_null : network :=
  fun _ => Some (mkresponse 200 (Some JNull)).

(** A server that sends the same full page at every offset. *)
Definition net_endless : network :=
  fun _ => Some (mkresponse 200
                   (Some (page_json [meeting (JInt 210) (JStr "2023-01-23")]))).

(** The line of an item when no field is quoted: the session in decimal,
    the two dates, tabs between them, CR LF at the end. *)
Definition plain_line (objSession : session_row) : string :=
  string_of_list_ascii
    (list_ascii_of_string (py_str_int (iSession objSession)) ++ tab
       :: list_ascii_of_string (pszStartDate objSession) ++ tab
       :: list_ascii_of_string (pszEndDate objSession)
       ++ [carriage_return; line_feed])%list.



(** A flag that is not given, or given empty. *)
Definition no_date_flag (x : option string) : Prop :=
  x = None \/ x = Some EmptyString.

(** A file system with a file already at the output path, and another
    file. *)
Definition fs_with_old_output : file_system :=
  mkfs [(pszOutputFile, "stale"); ("notes.txt", "keep")] (fun _ => true).

(** * Properties *)

Example ex_int_of_str :
  map int_of_str ["210"; " 210 "; "+2_10"; "-7"; "2__1"; "_1"; "1_"; "2 1"; "0x1"]
  = [Some 210; Some 210; Some 210; Some (-7); None; None; None; None; None].
Proof. reflexivity. Qed.

Example ex_dates :
  map date_of_isoformat ["2023-01-23"; "2023-02-29"; "2024-02-29"; "20230123"; "2023-1-23"]
  = [Some (mkdate 2023 1 23); None; Some (mkdate 2024 2 29); None; None].
Proof. reflexivity. Qed.

Example ex_isoformat : isoformat (mkdate 2023 1 23) = "2023-01-23" /\ isoformat (mkdate 987 12 5) = "0987-12-05".
Proof. split; reflexivity. Qed.

Example ex_minus : date_minus_days 30 (mkdate 2026 11 4) = Ok (mkdate 2026 10 5)
  /\ date_minus_days 30 (mkdate 2024 3 15) = Ok (mkdate 2024 2 14)
  /\ date_minus_days 30 (mkdate 2025 1 10) = Ok (mkdate 2024 12 11).
Proof. repeat split; reflexivity. Qed.

Example ex_str : map py_str_int [0; 210; -5] = ["0"; "210"; "-5"].
Proof. reflexivity. Qed.

Example ex_scenario :
  aggregate_sessions
    [meeting (JInt 210) (JStr "2023-01-23");
     meeting (JInt 210) (JStr "2023-06-21");
     meeting (JInt 211) (JStr "2023-10-20")]
  = Ok [mkrow 211 "2023-10-20" "2023-10-20"; mkrow 210 "2023-01-23" "2023-06-21"].
Proof. reflexivity. Qed.

Example ex_tsv :
  list_ascii_of_string (tsv_text [mkrow 211 "2023-10-20" "2023-10-20"])
  = (list_ascii_of_string "session" ++ tab :: list_ascii_of_string "start_date" ++ tab
      :: list_ascii_of_string "end_date" ++ carriage_return :: line_feed
      :: list_ascii_of_string "211" ++ tab :: list_ascii_of_string "2023-10-20" ++ tab
      :: list_ascii_of_string "2023-10-20" ++ [carriage_return; line_feed])%list.
Proof. reflexivity. Qed.

(** ** The order of dates *)

Ltac date_order :=
  unfold date_le, date_lt, date_ltb in *; simpl in *;
  repeat match goal with
         | H : _ = true |- _ =>
             rewrite ?orb_true_iff, ?andb_true_iff, ?Z.ltb_lt, ?Z.eqb_eq in H
         | H : _ = false |- _ =>
             rewrite ?orb_false_iff, ?andb_false_iff, ?Z.ltb_ge, ?Z.eqb_neq in H
         end;
  rewrite ?orb_true_iff, ?andb_true_iff, ?Z.ltb_lt, ?Z.eqb_eq,
    ?orb_false_iff, ?andb_false_iff, ?Z.ltb_ge, ?Z.eqb_neq;
  try lia.

Lemma date_le_refl (a : date) : date_le a a.
Proof. destruct a; date_order. Qed.

Lemma date_lt_le (a b : date) : date_lt a b -> date_le a b.
Proof. destruct a, b; intros H; date_order. Qed.

Lemma date_le_trans (a b c : date) : date_le a b -> date_le b c -> date_le a c.
Proof. destruct a, b, c; intros H1 H2; date_order. Qed.

Lemma date_le_antisym (a b : date) : date_le a b -> date_le b a -> a = b.
Proof.
  destruct a as [ya ma da], b as [yb mb db]; intros H1 H2; date_order.
  assert (ya = yb) by lia. assert (ma = mb) by lia. assert (da = db) by lia.
  congruence.
Qed.

Lemma date_ltb_false_le (a b : date) : date_ltb a b = false -> date_le b a.
Proof. intros H; exact H. Qed.

(** ** Dates and their text *)

Lemma digit_of_digit_char (x : Z) : digit_of (digit_char x) = Some (x mod 10).
Proof.
  unfold digit_of, digit_char.
  assert (H : 0 <= x mod 10 < 10) by (apply Z.mod_pos_bound; lia).
  rewrite nat_ascii_embedding by lia.
  rewrite Z2Nat.id by lia.
  destruct (Z.leb_spec 48 (48 + x mod 10)); [|lia].
  destruct (Z.leb_spec (48 + x mod 10) 57); [|lia].
  cbn [andb]. f_equal. lia.
Qed.

Lemma digit_of_Some (c : ascii) (x : Z) :
  digit_of c = Some x -> 0 <= x <= 9 /\ c = digit_char x.
Proof.
  unfold digit_of, digit_char.
  destruct (Z.leb_spec 48 (Z.of_nat (nat_of_ascii c))); cbn [andb]; [|discriminate].
  destruct (Z.leb_spec (Z.of_nat (nat_of_ascii c)) 57); [|discriminate].
  intros Hx. injection Hx as <-. split; [lia|].
  rewrite Z.mod_small by lia.
  replace (48 + (Z.of_nat (nat_of_ascii c) - 48)) with (Z.of_nat (nat_of_ascii c))
    by lia.
  now rewrite Nat2Z.id, ascii_nat_embedding.
Qed.

Lemma digit_char_eq (x y : Z) : x mod 10 = y mod 10 -> digit_char x = digit_char y.
Proof. unfold digit_char. now intros ->. Qed.

Lemma number2_Some (a b : ascii) (n : Z) :
  number2 a b = Some n ->
  0 <= n <= 99 /\ a = digit_char (n / 10) /\ b = digit_char n.
Proof.
  unfold number2.
  destruct (digit_of a) as [x|] eqn:Ea; [|discriminate].
  destruct (digit_of b) as [y|] eqn:Eb; [|discriminate].
  apply digit_of_Some in Ea, Eb. destruct Ea as [Hx ->], Eb as [Hy ->].
  intros H. assert (Hn : n = 10 * x + y) by congruence. subst n. clear H.
  split; [lia|].
  split; apply digit_char_eq; Z.to_euclidean_division_equations; lia.
Qed.

Lemma number4_Some (a b c d : ascii) (n : Z) :
  number4 a b c d = Some n ->
  0 <= n <= 9999 /\
  a = digit_char (n / 1000) /\ b = digit_char (n / 100) /\
  c = digit_char (n / 10) /\ d = digit_char n.
Proof.
  unfold number4.
  destruct (number2 a b) as [x|] eqn:Ex; [|discriminate].
  destruct (number2 c d) as [y|] eqn:Ey; [|discriminate].
  apply number2_Some in Ex, Ey.
  destruct Ex as (Hx & -> & ->), Ey as (Hy & -> & ->).
  intros H. assert (Hn : n = 100 * x + y) by congruence. subst n. clear H.
  split; [lia|].
  repeat split; apply digit_char_eq; Z.to_euclidean_division_equations; lia.
Qed.

(** A string that parses is the text of the date it parses to. *)
Lemma isoformat_date_of_isoformat (s : string) (d : date) :
  date_of_isoformat s = Some d -> isoformat d = s.
Proof.
  unfold date_of_isoformat. rewrite <- (string_of_list_ascii_of_string s) at 2.
  destruct (list_ascii_of_string s)
    as [|y1 [|y2 [|y3 [|y4 [|s1 [|m1 [|m2 [|s2 [|d1 [|d2 [|x l]]]]]]]]]]];
    try discriminate.
  destruct (Ascii.eqb_spec s1 minus_sign) as [->|]; [|discriminate].
  destruct (Ascii.eqb_spec s2 minus_sign) as [->|]; [|discriminate].
  simpl andb. cbv iota.
  destruct (number4 y1 y2 y3 y4) as [y|] eqn:Ey; [|discriminate].
  destruct (number2 m1 m2) as [m|] eqn:Em; [|discriminate].
  destruct (number2 d1 d2) as [dd|] eqn:Ed; [|discriminate].
  destruct (valid_date (mkdate y m dd)); [|discriminate].
  intros H. injection H as <-.
  apply number4_Some in Ey. apply number2_Some in Em, Ed.
  destruct Ey as (_ & -> & -> & -> & ->), Em as (_ & -> & ->), Ed as (_ & -> & ->).
  reflexivity.
Qed.

(** The text of a date parses back to the date. *)
Lemma date_of_isoformat_isoformat (d : date) :
  valid_date d = true -> date_of_isoformat (isoformat d) = Some d.
Proof.
  destruct d as [y m dd]. intros Hv.
  unfold date_of_isoformat, isoformat. rewrite list_ascii_of_string_of_list_ascii.
  cbn [year month day]. rewrite !Ascii.eqb_refl. simpl andb. cbv iota.
  unfold number4, number2. rewrite !digit_of_digit_char.
  assert (Hr : 1 <= y <= 9999 /\ 1 <= m <= 12 /\ 1 <= dd <= 31).
  { unfold valid_date in Hv. cbn [year month day] in Hv.
    rewrite !andb_true_iff, !Z.leb_le in Hv.
    assert (days_in_month y m <= 31).
    { unfold days_in_month.
      destruct (m =? 2); [destruct (is_leap y); lia|].
      destruct ((m =? 4) || (m =? 6) || (m =? 9) || (m =? 11)); lia. }
    lia. }
  replace (100 * (10 * ((y / 1000) mod 10) + (y / 100) mod 10)
           + (10 * ((y / 10) mod 10) + y mod 10)) with y
    by (Z.to_euclidean_division_equations; lia).
  replace (10 * ((m / 10) mod 10) + m mod 10) with m
    by (Z.to_euclidean_division_equations; lia).
  replace (10 * ((dd / 10) mod 10) + dd mod 10) with dd
    by (Z.to_euclidean_division_equations; lia).
  now rewrite Hv.
Qed.

Lemma days_in_month_bounds (y m : Z) : 28 <= days_in_month y m <= 31.
Proof.
  unfold days_in_month.
  destruct (m =? 2); [destruct (is_leap y); lia|].
  destruct ((m =? 4) || (m =? 6) || (m =? 9) || (m =? 11)); lia.
Qed.

Lemma previous_day_valid (d p : date) :
  valid_date d = true -> previous_day d = Some p -> valid_date p = true.
Proof.
  destruct d as [y m dd]. unfold valid_date, previous_day. cbn [year month day].
  rewrite !andb_true_iff, !Z.leb_le. intros Hv.
  destruct (Z.ltb_spec 1 dd).
  - intros Hp. injection Hp as <-. cbn [year month day]. lia.
  - destruct (Z.ltb_spec 1 m).
    + intros Hp. injection Hp as <-. cbn [year month day].
      pose proof (days_in_month_bounds y (m - 1)). lia.
    + destruct (Z.ltb_spec 1 y); [|discriminate].
      intros Hp. injection Hp as <-. cbn [year month day].
      change (days_in_month (y - 1) 12) with 31. lia.
Qed.

Lemma date_minus_days_valid (n : nat) (d p : date) :
  valid_date d = true -> date_minus_days n d = Ok p -> valid_date p = true.
Proof.
  revert d. induction n as [|n IH]; simpl; intros d Hv H.
  - now injection H as <-.
  - destruct (previous_day d) as [q|] eqn:E; [|discriminate].
    apply (IH q); [now apply (previous_day_valid d) | exact H].
Qed.

(** Without flags the script asks for the thirty days up to today. *)
Lemma parse_arguments_defaults (objToday objDefaultStartDate : date) :
  valid_date objToday = true ->
  date_minus_days 30 objToday = Ok objDefaultStartDate ->
  parse_arguments None None objToday = Ok (objDefaultStartDate, objToday).
Proof.
  intros Hv Hm. unfold parse_arguments. rewrite Hm. cbn [bind py_or].
  unfold fromisoformat_str.
  rewrite (date_of_isoformat_isoformat _ (date_minus_days_valid _ _ _ Hv Hm)).
  cbn [bind]. now rewrite (date_of_isoformat_isoformat _ Hv).
Qed.

(** ** [objSessionDateMap] as a dict *)

Lemma map_lookup_None (k : Z) (m : session_date_map) :
  map_lookup k m = None <-> ~ In k (map fst m).
Proof.
  induction m as [|[k0 r0] m IH]; simpl.
  - tauto.
  - destruct (Z.eqb_spec k0 k) as [->|Hne].
    + split; [discriminate | intros H; exfalso; apply H; now left].
    + rewrite IH. intuition congruence.
Qed.

Lemma map_lookup_In (k : Z) (r : date_range) (m : session_date_map) :
  map_lookup k m = Some r -> In (k, r) m.
Proof.
  induction m as [|[k0 r0] m IH]; simpl; [discriminate|].
  destruct (Z.eqb_spec k0 k) as [->|Hne]; intros H.
  - injection H as ->. now left.
  - right. auto.
Qed.

Lemma In_map_lookup (k : Z) (r : date_range) (m : session_date_map) :
  NoDup (map fst m) -> In (k, r) m -> map_lookup k m = Some r.
Proof.
  induction m as [|[k0 r0] m IH]; simpl; [tauto|].
  intros Hnd [Heq|Hin]; inversion Hnd as [|? ? Hnotin Hnd']; subst.
  - injection Heq as -> ->. now rewrite Z.eqb_refl.
  - destruct (Z.eqb_spec k0 k) as [->|Hne]; [|auto].
    exfalso. apply Hnotin. change k with (fst (k, r)). now apply in_map.
Qed.

Lemma map_lookup_store_same (k : Z) (r : date_range) (m : session_date_map) :
  map_lookup k (map_store k r m) = Some r.
Proof.
  induction m as [|[k0 r0] m IH]; simpl.
  - now rewrite Z.eqb_refl.
  - destruct (Z.eqb_spec k0 k) as [->|Hne]; simpl.
    + now rewrite Z.eqb_refl.
    + destruct (Z.eqb_spec k0 k); [contradiction | exact IH].
Qed.

Lemma map_lookup_store_other (k k' : Z) (r : date_range) (m : session_date_map) :
  k' <> k -> map_lookup k' (map_store k r m) = map_lookup k' m.
Proof.
  intros Hne. induction m as [|[k0 r0] m IH]; simpl.
  - destruct (Z.eqb_spec k k'); [congruence | reflexivity].
  - destruct (Z.eqb_spec k0 k) as [->|Hne0]; simpl.
    + destruct (Z.eqb_spec k k'); [congruence | reflexivity].
    + now rewrite IH.
Qed.

Lemma map_store_keys (k : Z) (r : date_range) (m : session_date_map) :
  map fst (map_store k r m)
  = match map_lookup k m with
    | Some _ => map fst m
    | None => (map fst m ++ [k])%list
    end.
Proof.
  induction m as [|[k0 r0] m IH]; simpl; [reflexivity|].
  destruct (Z.eqb_spec k0 k) as [->|Hne]; simpl; [reflexivity|].
  rewrite IH. now destruct (map_lookup k m).
Qed.

Lemma map_store_NoDup (k : Z) (r : date_range) (m : session_date_map) :
  NoDup (map fst m) -> NoDup (map fst (map_store k r m)).
Proof.
  intros Hnd. rewrite map_store_keys.
  destruct (map_lookup k m) eqn:E; [exact Hnd|].
  apply map_lookup_None in E.
  apply NoDup_rev in Hnd. rewrite <- rev_involutive. apply NoDup_rev.
  rewrite rev_app_distr. simpl. constructor; [|exact Hnd].
  now rewrite <- in_rev.
Qed.

Lemma record_date_NoDup (k : Z) (d : date) (m : session_date_map) :
  NoDup (map fst m) -> NoDup (map fst (record_date k d m)).
Proof.
  intros Hnd. unfold record_date.
  destruct (map_lookup k m); now apply map_store_NoDup.
Qed.

Lemma record_date_same (k : Z) (d : date) (m : session_date_map) :
  map_lookup k (record_date k d m)
  = Some (match map_lookup k m with
          | Some r => widen d r
          | None => mkrange d d
          end).
Proof.
  unfold record_date. destruct (map_lookup k m); apply map_lookup_store_same.
Qed.

Lemma record_date_other (k k' : Z) (d : date) (m : session_date_map) :
  k' <> k -> map_lookup k' (record_date k d m) = map_lookup k' m.
Proof.
  intros Hne. unfold record_date.
  destruct (map_lookup k m); now apply map_lookup_store_other.
Qed.

(** The two updates of [widen] give the lesser start and the greater end. *)
Lemma widen_start (d : date) (r : date_range) :
  objStartDate (widen d r)
  = if date_ltb d (objStartDate r) then d else objStartDate r.
Proof.
  unfold widen. destruct (date_ltb d (objStartDate r)); simpl;
    destruct (date_ltb (objEndDate r) d); reflexivity.
Qed.

Lemma widen_end (d : date) (r : date_range) :
  objEndDate (widen d r)
  = if date_ltb (objEndDate r) d then d else objEndDate r.
Proof.
  unfold widen. destruct (date_ltb d (objStartDate r)); simpl;
    destruct (date_ltb (objEndDate r) d); reflexivity.
Qed.

(** ** The first loop keeps a summary of what it has read *)

Lemma summarises_nil : summarises [] [].
Proof. split; [constructor | intros k d []]. Qed.

Lemma summarises_step (xs : list (Z * date)) (m : session_date_map) (k : Z) (d : date) :
  summarises xs m -> summarises (xs ++ [(k, d)]) (record_date k d m).
Proof.
  intros [Hnd Hsum]. split; [now apply record_date_NoDup|].
  intros k'. destruct (Z.eq_dec k' k) as [->|Hne].
  - rewrite record_date_same. specialize (Hsum k).
    destruct (map_lookup k m) as [r|].
    + destruct Hsum as (Hs & He & Hall).
      rewrite widen_start, widen_end.
      repeat split.
      * destruct (date_ltb d (objStartDate r)); apply in_or_app; simpl; auto.
      * destruct (date_ltb (objEndDate r) d); apply in_or_app; simpl; auto.
      * apply in_app_or in H. destruct H as [H|[H|[]]].
        -- destruct (Hall _ H) as [H1 _].
           destruct (date_ltb d (objStartDate r)) eqn:E; [|exact H1].
           eapply date_le_trans; [apply date_lt_le; exact E | exact H1].
        -- injection H as <-.
           destruct (date_ltb d (objStartDate r)) eqn:E;
             [apply date_le_refl | exact E].
      * apply in_app_or in H. destruct H as [H|[H|[]]].
        -- destruct (Hall _ H) as [_ H2].
           destruct (date_ltb (objEndDate r) d) eqn:E; [|exact H2].
           eapply date_le_trans; [exact H2 | apply date_lt_le; exact E].
        -- injection H as <-.
           destruct (date_ltb (objEndDate r) d) eqn:E;
             [apply date_le_refl | exact E].
    + simpl. repeat split; try (apply in_or_app; simpl; auto).
      * apply in_app_or in H. destruct H as [H|[H|[]]];
          [destruct (Hsum _ H) | injection H as <-; apply date_le_refl].
      * apply in_app_or in H. destruct H as [H|[H|[]]];
          [destruct (Hsum _ H) | injection H as <-; apply date_le_refl].
  - rewrite record_date_other by exact Hne. specialize (Hsum k').
    destruct (map_lookup k' m) as [r|].
    + destruct Hsum as (Hs & He & Hall).
      repeat split; try (apply in_or_app; now left).
      * apply in_app_or in H. destruct H as [H|[H|[]]];
          [apply (Hall _ H) | congruence].
      * apply in_app_or in H. destruct H as [H|[H|[]]];
          [apply (Hall _ H) | congruence].
    + intros d' H. apply in_app_or in H. destruct H as [H|[H|[]]];
        [exact (Hsum _ H) | congruence].
Qed.

Lemma summarises_all (xs pre : list (Z * date)) (m : session_date_map) :
  summarises pre m -> summarises (pre ++ xs) (record_all xs m).
Proof.
  revert pre m. induction xs as [|[k d] xs IH]; intros pre m H; simpl.
  - now rewrite app_nil_r.
  - change (pre ++ (k, d) :: xs)%list with (pre ++ [(k, d)] ++ xs)%list.
    rewrite app_assoc. apply IH. now apply summarises_step.
Qed.

(** ** Reading the records *)

Lemma aggregate_loop_read (l : list json) (m : session_date_map) :
  aggregate_loop l m = (xs <- read_records l ;; Ok (record_all xs m)).
Proof.
  revert m. induction l as [|rec l IH]; intros m; simpl; [reflexivity|].
  destruct (read_record rec) as [x|e]; simpl; [|reflexivity].
  rewrite IH. now destruct (read_records l).
Qed.

Lemma read_records_app (l1 l2 : list json) :
  read_records (l1 ++ l2)
  = (xs1 <- read_records l1 ;; xs2 <- read_records l2 ;; Ok (xs1 ++ xs2)%list).
Proof.
  induction l1 as [|rec l1 IH]; simpl.
  - now destruct (read_records l2).
  - destruct (read_record rec) as [x|e]; simpl; [|reflexivity].
    rewrite IH. destruct (read_records l1); simpl; [|reflexivity].
    now destruct (read_records l2).
Qed.

Lemma read_records_In (l : list json) (xs : list (Z * date)) :
  read_records l = Ok xs ->
  forall x, In x xs <-> exists rec, In rec l /\ read_record rec = Ok x.
Proof.
  revert xs. induction l as [|rec l IH]; simpl; intros xs H x.
  - injection H as <-. simpl. split; [tauto | intros (? & [] & _)].
  - destruct (read_record rec) as [x0|e] eqn:E0; simpl in H; [|discriminate].
    destruct (read_records l) as [xs0|e]; simpl in H; [|discriminate].
    injection H as <-. simpl. rewrite (IH xs0 eq_refl x). split.
    + intros [->|(r & Hin & Hr)]; [exists rec | exists r]; auto.
    + intros (r & [->|Hin] & Hr); [left; congruence | right; eauto].
Qed.

Lemma read_records_all (l : list json) :
  (forall rec, In rec l -> exists x, read_record rec = Ok x) ->
  exists xs, read_records l = Ok xs.
Proof.
  induction l as [|rec l IH]; simpl; intros H; [eauto|].
  destruct (H rec (or_introl eq_refl)) as [x ->]. simpl.
  destruct IH as [xs ->]; [auto|]. simpl. eauto.
Qed.

Lemma read_records_raise (l : list json) :
  (exists rec e, In rec l /\ read_record rec = Raise e) ->
  exists e, read_records l = Raise e.
Proof.
  induction l as [|rec l IH]; simpl; intros (r & e & Hin & Hr); [contradiction|].
  destruct (read_record rec) as [x|e0] eqn:E; simpl; [|eauto].
  destruct Hin as [->|Hin]; [congruence|].
  destruct IH as [e1 ->]; simpl; eauto.
Qed.

Lemma read_records_Permutation (l l' : list json) :
  Permutation l l' ->
  forall xs, read_records l = Ok xs ->
  exists xs', read_records l' = Ok xs' /\ Permutation xs xs'.
Proof.
  induction 1 as [|rec l l' HP IH|a b l|l l' l'' HP1 IH1 HP2 IH2];
    simpl; intros xs H.
  - eauto.
  - destruct (read_record rec) as [x|e]; simpl in *; [|discriminate].
    destruct (read_records l) as [xs0|e]; simpl in *; [|discriminate].
    injection H as <-. destruct (IH xs0 eq_refl) as (xs' & -> & HP').
    simpl. eauto.
  - destruct (read_record a) as [xa|e]; simpl in *;
      destruct (read_record b) as [xb|e']; simpl in *; try discriminate.
    destruct (read_records l) as [xs0|e]; simpl in *; [|discriminate].
    injection H as <-. eexists; split; [reflexivity | apply perm_swap].
  - destruct (IH1 xs H) as (xs' & H' & HP').
    destruct (IH2 xs' H') as (xs'' & H'' & HP'').
    exists xs''. split; [exact H'' | eapply Permutation_trans; eauto].
Qed.

Lemma readable_record_read (rec : json) :
  readable_record rec <-> exists x, read_record rec = Ok x.
Proof.
  split.
  - intros (members & vs & vd & k & d & -> & Hs & Hd & Hk & Hdate).
    exists (k, d). unfold read_record. simpl. rewrite Hs, Hd. simpl.
    rewrite Hk. simpl. now rewrite Hdate.
  - intros [[k d] H]. unfold read_record in H.
    destruct rec as [| | | | s|items|members]; simpl in H; try discriminate.
    + destruct (is_substring "session" s); simpl in H;
        [destruct (is_substring "date" s)|]; discriminate.
    + destruct (existsb (json_is_str "session") items); simpl in H;
        [destruct (existsb (json_is_str "date") items)|]; discriminate.
    + destruct (dict_lookup "session" members) as [vs|] eqn:Hs; simpl in H;
        [|discriminate].
      destruct (dict_lookup "date" members) as [vd|] eqn:Hd; simpl in H;
        [|discriminate].
      destruct (py_int vs) as [k0|] eqn:Hk; simpl in H; [|discriminate].
      destruct (fromisoformat vd) as [d0|] eqn:Hdate; simpl in H; [|discriminate].
      exists members, vs, vd, k0, d0. auto.
Qed.

(** ** The final sort *)

Lemma insert_desc_perm (x : session_row) (l : list session_row) :
  Permutation (insert_desc x l) (x :: l).
Proof.
  induction l as [|y l IH]; simpl; [reflexivity|].
  destruct (iSession x <? iSession y); [|reflexivity].
  rewrite IH. apply perm_swap.
Qed.

Lemma sorted_desc_perm (l : list session_row) : Permutation (sorted_desc l) l.
Proof.
  induction l as [|x l IH]; simpl; [reflexivity|].
  rewrite insert_desc_perm. now constructor.
Qed.

Lemma insert_desc_sorted (x : session_row) (l : list session_row) :
  StronglySorted (fun a b => iSession b <= iSession a) l ->
  StronglySorted (fun a b => iSession b <= iSession a) (insert_desc x l).
Proof.
  induction 1 as [|y l Hs IH Hall]; simpl.
  - repeat constructor.
  - destruct (Z.ltb_spec (iSession x) (iSession y)) as [Hlt|Hge].
    + constructor; [exact IH|].
      eapply Permutation_Forall; [symmetry; apply insert_desc_perm|].
      constructor; [lia | exact Hall].
    + constructor; [now constructor|].
      constructor; [exact Hge|].
      eapply Forall_impl; [|exact Hall]. simpl. intros; lia.
Qed.

Lemma sorted_desc_sorted (l : list session_row) :
  StronglySorted (fun a b => iSession b <= iSession a) (sorted_desc l).
Proof.
  induction l as [|x l IH]; simpl; [constructor | now apply insert_desc_sorted].
Qed.

Lemma sorted_strict (l : list session_row) :
  StronglySorted (fun a b => iSession b <= iSession a) l ->
  NoDup (map iSession l) -> strictly_descending l.
Proof.
  induction 1 as [|x l Hs IH Hall]; simpl; intros Hnd; [constructor|].
  inversion Hnd as [|? ? Hnotin Hnd']; subst.
  constructor; [exact (IH Hnd')|].
  rewrite Forall_forall in Hall. apply Forall_forall. intros y Hy.
  assert (iSession y <> iSession x).
  { intros Heq. apply Hnotin. rewrite <- Heq. now apply in_map. }
  specialize (Hall y Hy). simpl in Hall. lia.
Qed.

Lemma session_entry_keys (m : session_date_map) :
  map iSession (map session_entry m) = map fst m.
Proof. rewrite map_map. reflexivity. Qed.

Lemma sorted_desc_strict (m : session_date_map) :
  NoDup (map fst m) -> strictly_descending (sorted_desc (map session_entry m)).
Proof.
  intros Hnd. apply sorted_strict; [apply sorted_desc_sorted|].
  eapply Permutation_NoDup.
  - apply Permutation_map. symmetry. apply sorted_desc_perm.
  - now rewrite session_entry_keys.
Qed.

(** Two lists in strictly descending order with the same items are the same
    list. *)
Lemma strictly_descending_unique (l1 l2 : list session_row) :
  strictly_descending l1 -> strictly_descending l2 ->
  (forall x, In x l1 <-> In x l2) -> l1 = l2.
Proof.
  unfold strictly_descending. intros H1. revert l2.
  induction H1 as [|x l1 Hs1 IH Hall1]; intros l2 H2 Hin.
  - destruct l2 as [|y l2]; [reflexivity|].
    exfalso. apply (Hin y). now left.
  - destruct H2 as [|y l2 Hs2 Hall2].
    + exfalso. apply (Hin x). now left.
    + rewrite Forall_forall in Hall1, Hall2.
      assert (Hxy : x = y).
      { destruct (proj1 (Hin x) (or_introl eq_refl)) as [Heq|Hx2]; [auto|].
        destruct (proj2 (Hin y) (or_introl eq_refl)) as [Heq|Hy1]; [auto|].
        specialize (Hall1 _ Hy1). specialize (Hall2 _ Hx2). simpl in *. lia. }
      subst y. f_equal. apply IH; [exact Hs2|].
      intros z. split; intros Hz.
      * destruct (proj1 (Hin z) (or_intror Hz)) as [Heq|Hz2]; [|exact Hz2].
        subst z. specialize (Hall1 _ Hz). simpl in Hall1. lia.
      * destruct (proj2 (Hin z) (or_intror Hz)) as [Heq|Hz1]; [|exact Hz1].
        subst z. specialize (Hall2 _ Hz). simpl in Hall2. lia.
Qed.

(** ** What [aggregate_sessions] returns *)

Lemma aggregate_sessions_read (l : list json) :
  aggregate_sessions l
  = (xs <- read_records l ;;
     Ok (sorted_desc (map session_entry (record_all xs [])))).
Proof.
  unfold aggregate_sessions. rewrite aggregate_loop_read.
  now destruct (read_records l).
Qed.

Lemma record_all_summarises (xs : list (Z * date)) :
  summarises xs (record_all xs []).
Proof. apply (summarises_all xs [] []). apply summarises_nil. Qed.

Lemma summarises_same_items (xs xs' : list (Z * date)) (m : session_date_map) :
  (forall x, In x xs <-> In x xs') -> summarises xs m -> summarises xs' m.
Proof.
  intros Hin [Hnd Hsum]. split; [exact Hnd|]. intros k. specialize (Hsum k).
  destruct (map_lookup k m) as [r|].
  - destruct Hsum as (Hs & He & Hall). repeat split; try (apply Hin; assumption);
      apply Hall; apply Hin; assumption.
  - intros d Hd. apply (Hsum d). now apply Hin.
Qed.

Lemma summarises_functional (xs : list (Z * date)) (m m' : session_date_map) :
  summarises xs m -> summarises xs m' ->
  forall k, map_lookup k m = map_lookup k m'.
Proof.
  intros [_ H] [_ H'] k. specialize (H k). specialize (H' k).
  destruct (map_lookup k m) as [r|], (map_lookup k m') as [r'|].
  - destruct H as (Hs & He & Hall), H' as (Hs' & He' & Hall').
    destruct r as [s e], r' as [s' e']; simpl in *.
    f_equal. f_equal; apply date_le_antisym;
      try (apply (Hall _ Hs')); try (apply (Hall' _ Hs));
      try (apply (Hall _ He')); try (apply (Hall' _ He)).
  - destruct H as (Hs & _). destruct (H' _ Hs).
  - destruct H' as (Hs & _). destruct (H _ Hs).
  - reflexivity.
Qed.

Lemma In_sorted_entries (m : session_date_map) (row : session_row) :
  NoDup (map fst m) ->
  (In row (sorted_desc (map session_entry m)) <->
   exists r, map_lookup (iSession row) m = Some r /\
             row = session_entry (iSession row, r)).
Proof.
  intros Hnd. split.
  - intros H. apply (Permutation_in _ (sorted_desc_perm _)) in H.
    apply in_map_iff in H. destruct H as ([k r] & <- & Hin).
    exists r. simpl. split; [now apply In_map_lookup | reflexivity].
  - intros (r & Hl & ->). simpl in Hl.
    apply (Permutation_in _ (Permutation_sym (sorted_desc_perm _))).
    apply in_map. now apply map_lookup_In.
Qed.

Lemma rows_of_summary (xs : list (Z * date)) (m : session_date_map) :
  summarises xs m ->
  let rows := sorted_desc (map session_entry m) in
  strictly_descending rows /\
  NoDup (map iSession rows) /\
  (forall k, In k (map iSession rows) <-> exists d, In (k, d) xs) /\
  forall row, In row rows ->
    exists r, row = session_entry (iSession row, r) /\
      In (iSession row, objStartDate r) xs /\
      In (iSession row, objEndDate r) xs /\
      forall d, In (iSession row, d) xs ->
                date_le (objStartDate r) d /\ date_le d (objEndDate r).
Proof.
  intros Hsum rows. pose proof Hsum as [Hnd Hall].
  assert (Hkeys : Permutation (map iSession rows) (map fst m)).
  { rewrite <- session_entry_keys. apply Permutation_map, sorted_desc_perm. }
  split; [now apply sorted_desc_strict|].
  split; [eapply Permutation_NoDup; [symmetry; exact Hkeys | exact Hnd]|].
  split.
  - intros k. specialize (Hall k). split.
    + intros Hk. apply (Permutation_in _ Hkeys) in Hk.
      destruct (map_lookup k m) as [r|] eqn:E.
      * exists (objStartDate r). apply Hall.
      * apply map_lookup_None in E. contradiction.
    + intros [d Hd]. apply (Permutation_in _ (Permutation_sym Hkeys)).
      destruct (map_lookup k m) as [r|] eqn:E.
      * apply map_lookup_In in E. change k with (fst (k, r)). now apply in_map.
      * destruct (Hall _ Hd).
  - intros row Hrow. apply In_sorted_entries in Hrow; [|exact Hnd].
    destruct Hrow as (r & Hl & Hr). exists r. split; [exact Hr|].
    specialize (Hall (iSession row)). rewrite Hl in Hall. exact Hall.
Qed.

Lemma session_date_In (l : list json) (xs : list (Z * date)) (k : Z) (d : date) :
  read_records l = Ok xs -> (In (k, d) xs <-> session_date l k d).
Proof. intros H. apply (read_records_In l xs H (k, d)). Qed.

Lemma meeting_readable (vSession : json) (pszDate : string) (k : Z) (d : date) :
  py_int vSession = Ok k -> date_of_isoformat pszDate = Some d ->
  readable_record (meeting vSession (JStr pszDate)).
Proof.
  intros Hk Hd. exists [("session", vSession); ("date", JStr pszDate)].
  exists vSession, (JStr pszDate), k, d. repeat split; try reflexivity.
  - exact Hk.
  - simpl. unfold fromisoformat_str. now rewrite Hd.
Qed.

(** ** Order and uniqueness of the returned sessions *)

(** C6.  The list that [aggregate_sessions] returns is in strictly
    descending order of session number, and no session number occurs in it
    twice. *)
Theorem aggregate_sessions_strictly_descending
    (l : list json) (rows : list session_row) :
  aggregate_sessions l = Ok rows ->
  StronglySorted (fun a b => iSession b < iSession a) rows /\
  NoDup (map iSession rows).
Proof.
  rewrite aggregate_sessions_read.
  destruct (read_records l) as [xs|e] eqn:E; simpl; [|discriminate].
  intros H. injection H as <-.
  destruct (rows_of_summary xs _ (record_all_summarises xs)) as (Hs & Hnd & _).
  split; assumption.
Qed.

Lemma aggregate_sessions_strictly_descending_witness :
  StronglySorted (fun a b => iSession b < iSession a)
    [mkrow 211 "2023-10-20" "2023-10-20"; mkrow 210 "2023-01-23" "2023-06-21"] /\
  NoDup (map iSession
    [mkrow 211 "2023-10-20" "2023-10-20"; mkrow 210 "2023-01-23" "2023-06-21"]).
Proof.
  apply (aggregate_sessions_strictly_descending scenario_records).
  reflexivity.
Defined.

(** ** The range of a session *)

(** C7.  After every record processed, each range of [objSessionDateMap]
    has its start no later than its end, and both are dates of records
    read so far with that session number; the same holds of every returned
    item with respect to the whole list. *)
Theorem aggregate_sessions_range_invariant
    (pre post : list json) (rows : list session_row) :
  aggregate_sessions (pre ++ post) = Ok rows ->
  (exists m,
     aggregate_loop pre [] = Ok m /\
     forall k r, In (k, r) m ->
       date_le (objStartDate r) (objEndDate r) /\
       session_date pre k (objStartDate r) /\
       session_date pre k (objEndDate r)) /\
  forall row, In row rows ->
    exists r,
      row = session_entry (iSession row, r) /\
      date_le (objStartDate r) (objEndDate r) /\
      session_date (pre ++ post) (iSession row) (objStartDate r) /\
      session_date (pre ++ post) (iSession row) (objEndDate r).
Proof.
  rewrite aggregate_sessions_read.
  destruct (read_records (pre ++ post)) as [xs|e] eqn:E; simpl; [|discriminate].
  intros H. injection H as <-. split.
  - rewrite read_records_app in E.
    destruct (read_records pre) as [xs1|e] eqn:E1; simpl in E; [|discriminate].
    exists (record_all xs1 []). split.
    + rewrite aggregate_loop_read, E1. reflexivity.
    + intros k r Hin.
      destruct (record_all_summarises xs1) as [Hnd Hall].
      apply (In_map_lookup _ _ _ Hnd) in Hin.
      specialize (Hall k). rewrite Hin in Hall.
      destruct Hall as (Hs & He & Hall).
      repeat split; try (apply (session_date_In pre xs1 _ _ E1); assumption).
      apply (Hall _ Hs).
  - intros row Hrow.
    destruct (rows_of_summary xs _ (record_all_summarises xs)) as (_ & _ & _ & Hr).
    destruct (Hr row Hrow) as (r & Heq & Hs & He & Hall).
    exists r. repeat split; try assumption;
      try (apply (session_date_In _ xs _ _ E); assumption).
    apply (Hall _ Hs).
Qed.

Lemma aggregate_sessions_range_invariant_witness :
  (exists m,
     aggregate_loop (firstn 2 scenario_records) [] = Ok m /\
     forall k r, In (k, r) m ->
       date_le (objStartDate r) (objEndDate r) /\
       session_date (firstn 2 scenario_records) k (objStartDate r) /\
       session_date (firstn 2 scenario_records) k (objEndDate r)) /\
  forall row,
    In row [mkrow 211 "2023-10-20" "2023-10-20"; mkrow 210 "2023-01-23" "2023-06-21"] ->
    exists r,
      row = session_entry (iSession row, r) /\
      date_le (objStartDate r) (objEndDate r) /\
      session_date scenario_records (iSession row) (objStartDate r) /\
      session_date scenario_records (iSession row) (objEndDate r).
Proof.
  apply (aggregate_sessions_range_invariant
           (firstn 2 scenario_records) (skipn 2 scenario_records)).
  reflexivity.
Defined.

Lemma read_record_fields (objMeetingRecord : json) (k : Z) (d : date) :
  read_record objMeetingRecord = Ok (k, d) <->
  record_session_date objMeetingRecord k d.
Proof.
  split.
  - unfold read_record.
    destruct objMeetingRecord as [| | | | s|items|members]; simpl; try discriminate.
    + destruct (is_substring "session" s); simpl;
        [destruct (is_substring "date" s)|]; discriminate.
    + destruct (existsb (json_is_str "session") items); simpl;
        [destruct (existsb (json_is_str "date") items)|]; discriminate.
    + destruct (dict_lookup "session" members) as [vs|] eqn:Hs; simpl;
        [|discriminate].
      destruct (dict_lookup "date" members) as [vd|] eqn:Hd; simpl;
        [|discriminate].
      destruct (py_int vs) as [k0|] eqn:Hk; simpl; [|discriminate].
      destruct vd as [| | | | pszDate| |]; simpl; try discriminate.
      unfold fromisoformat_str.
      destruct (date_of_isoformat pszDate) as [d0|] eqn:Hdate; simpl;
        [|discriminate].
      intros H. injection H as <- <-.
      exists members, vs, pszDate. auto.
  - intros (members & vs & pszDate & -> & Hs & Hd & Hk & Hdate).
    unfold read_record. simpl. rewrite Hs, Hd. simpl. rewrite Hk. simpl.
    unfold fromisoformat_str. now rewrite Hdate.
Qed.

Lemma session_date_fields (l : list json) (k : Z) (d : date) :
  session_date l k d <->
  exists objMeetingRecord,
    In objMeetingRecord l /\ record_session_date objMeetingRecord k d.
Proof.
  unfold session_date. split; intros (rec & Hin & H); exists rec;
    (split; [exact Hin | now apply read_record_fields]).
Qed.

(** What the claim says of the returned list, read on the fields of the
    records. *)
Lemma aggregate_sessions_ranges (l : list json) :
  Forall readable_record l ->
  exists rows,
    aggregate_sessions l = Ok rows /\
    strictly_descending rows /\
    one_range_per_session l rows.
Proof.
  intros Hall. rewrite Forall_forall in Hall.
  destruct (read_records_all l) as [xs E].
  { intros rec Hin. apply readable_record_read. auto. }
  rewrite aggregate_sessions_read, E. simpl. eexists. split; [reflexivity|].
  destruct (rows_of_summary xs _ (record_all_summarises xs))
    as (Hsorted & Hnd & Hkeys & Hrows).
  split; [exact Hsorted|]. split; [exact Hnd|]. split.
  - intros k. rewrite Hkeys. split.
    + intros [d Hd]. apply (session_date_In l xs k d E) in Hd.
      apply session_date_fields in Hd. destruct Hd as (rec & Hin & Hrec). eauto.
    + intros (rec & d & Hin & Hrec). exists d.
      apply (session_date_In l xs k d E). apply session_date_fields. eauto.
  - intros row Hrow. destruct (Hrows row Hrow) as (r & Heq & Hs & He & Hbounds).
    exists (objStartDate r), (objEndDate r).
    split; [rewrite Heq at 1; reflexivity|].
    split; [rewrite Heq at 1; reflexivity|].
    split; [apply session_date_fields; now apply (session_date_In l xs _ _ E)|].
    split; [apply session_date_fields; now apply (session_date_In l xs _ _ E)|].
    intros rec d Hin Hrec. apply Hbounds.
    apply (session_date_In l xs _ _ E). apply session_date_fields. eauto.
Qed.




(** ** Order independence *)

(** C5.  A list of records and a permutation of it give the same returned
    list: the same items in the same order when the call returns, and no
    list for either when it raises. *)
Theorem aggregate_sessions_order_independent (l l' : list json) :
  Permutation l l' ->
  returned (aggregate_sessions l) = returned (aggregate_sessions l').
Proof.
  intros HP. rewrite !aggregate_sessions_read.
  destruct (read_records l) as [xs|e] eqn:E.
  - destruct (read_records_Permutation l l' HP xs E) as (xs' & -> & HPx).
    simpl. f_equal.
    pose proof (record_all_summarises xs) as Hm.
    pose proof (record_all_summarises xs') as Hm'.
    assert (Hm2 : summarises xs (record_all xs' [])).
    { apply (summarises_same_items xs'); [|exact Hm'].
      intros x. split; apply Permutation_in;
        [symmetry; exact HPx | exact HPx]. }
    pose proof (summarises_functional xs _ _ Hm Hm2) as Hfun.
    apply strictly_descending_unique.
    + apply sorted_desc_strict, Hm.
    + apply sorted_desc_strict, Hm'.
    + intros row. rewrite !In_sorted_entries by (apply Hm || apply Hm').
      now rewrite Hfun.
  - destruct (read_records l') as [xs'|e'] eqn:E'; [|reflexivity].
    destruct (read_records_Permutation l' l (Permutation_sym HP) xs' E')
      as (xs & E2 & _).
    congruence.
Qed.

Lemma aggregate_sessions_order_independent_witness :
  returned (aggregate_sessions scenario_records)
  = returned (aggregate_sessions (rev scenario_records)).
Proof.
  apply (aggregate_sessions_order_independent scenario_records (rev scenario_records)).
  apply Permutation_rev.
Defined.

(** ** Session numbers are read through [int()] *)

(** C8.  Sessions are keyed by [int(record["session"])]: a record whose
    session is the string 210 and a record whose session is the integer
    210 give one item, with session 210 and the range of both dates; and
    the session of every record of the input is, once converted, the
    integer session of an item of the output. *)
Theorem aggregate_sessions_int_keys :
  (forall pszDate1 pszDate2 d1 d2,
      date_of_isoformat pszDate1 = Some d1 ->
      date_of_isoformat pszDate2 = Some d2 ->
      aggregate_sessions
        [meeting (JStr "210") (JStr pszDate1); meeting (JInt 210) (JStr pszDate2)]
      = Ok [mkrow 210
              (isoformat (if date_ltb d2 d1 then d2 else d1))
              (isoformat (if date_ltb d1 d2 then d2 else d1))]) /\
  (forall l rows objMeetingRecord vSession,
      aggregate_sessions l = Ok rows ->
      In objMeetingRecord l ->
      py_getitem objMeetingRecord "session" = Ok vSession ->
      exists k : Z, py_int vSession = Ok k /\ In k (map iSession rows)).
Proof.
  split.
  - intros s1 s2 d1 d2 H1 H2.
    unfold aggregate_sessions, aggregate_loop, read_record, meeting.
    cbn -[date_of_isoformat isoformat date_ltb].
    unfold fromisoformat_str. rewrite H1, H2.
    cbn -[date_of_isoformat isoformat date_ltb].
    change (int_of_str "210") with (Some 210).
    cbn -[date_of_isoformat isoformat date_ltb widen].
    unfold session_entry. simpl fst. simpl snd.
    rewrite widen_start, widen_end. reflexivity.
  - intros l rows rec vs Hagg Hin Hget.
    rewrite aggregate_sessions_read in Hagg.
    destruct (read_records l) as [xs|e] eqn:E; simpl in Hagg; [|discriminate].
    injection Hagg as <-.
    assert (Hread : exists x, read_record rec = Ok x).
    { destruct (read_record rec) as [x|e] eqn:Er; [eauto|].
      destruct (read_records_raise l) as [e' He']; [eauto|]. congruence. }
    apply readable_record_read in Hread.
    destruct Hread as (members & vs' & vd & k & d & -> & Hs & Hd & Hk & Hdate).
    simpl in Hget. rewrite Hs in Hget. injection Hget as <-.
    exists k. split; [exact Hk|].
    destruct (rows_of_summary xs _ (record_all_summarises xs)) as (_ & _ & Hkeys & _).
    apply Hkeys. exists d. apply (session_date_In _ xs k d E).
    exists (JObj members). split; [exact Hin|].
    unfold read_record. simpl. rewrite Hs, Hd. simpl. rewrite Hk. simpl.
    now rewrite Hdate.
Qed.

Lemma aggregate_sessions_int_keys_witness :
  aggregate_sessions
    [meeting (JStr "210") (JStr "2023-06-21"); meeting (JInt 210) (JStr "2023-01-23")]
  = Ok [mkrow 210 "2023-01-23" "2023-06-21"] /\
  exists k : Z, py_int (JStr "210") = Ok k /\ In k [210].
Proof.
  split.
  - apply (proj1 aggregate_sessions_int_keys
             "2023-06-21" "2023-01-23" (mkdate 2023 6 21) (mkdate 2023 1 23));
      reflexivity.
  - apply (proj2 aggregate_sessions_int_keys
             [meeting (JStr "210") (JStr "2023-06-21"); meeting (JInt 210) (JStr "2023-01-23")]
             [mkrow 210 "2023-01-23" "2023-06-21"]
             (meeting (JStr "210") (JStr "2023-06-21")) (JStr "210")).
    + reflexivity.
    + now left.
    + reflexivity.
Defined.

(** ** A date that does not parse *)



(** ** The pages of a fetch *)

Lemma offset_S (i : nat) : offset (S i) = offset i + iMaximumRecords.
Proof. unfold offset, iMaximumRecords. lia. Qed.

Lemma delivers_fetch_page (net : network) (s e : string) (i : nat) (p : list json) :
  delivers net s e i p <-> fetch_page net s e (offset i) = Ok p.
Proof.
  unfold delivers, fetch_page, requests_get. split.
  - intros (members & -> & Hl). simpl. unfold page_records, response_json. simpl.
    now rewrite Hl.
  - destruct (net (objParams s e (offset i))) as [[status body]|]; simpl;
      [|discriminate].
    unfold page_records, response_json. simpl.
    destruct (Z.eqb_spec status 200) as [->|Hne]; simpl; [|discriminate].
    destruct body as [objJson|]; simpl; [|discriminate].
    destruct objJson as [| | | | str|items|members]; simpl; try discriminate.
    + destruct (is_substring "meetingRecord" str); discriminate.
    + destruct (existsb (json_is_str "meetingRecord") items); discriminate.
    + destruct (dict_lookup "meetingRecord" members) as [v|] eqn:El; simpl;
        [|discriminate].
      destruct v; try discriminate. intros H. injection H as ->. eauto.
Qed.

(** The status test of line 42: the only source of the status error. *)
Lemma fetch_page_status_error (net : network) (s e : string) (pos c : Z) :
  fetch_page net s e pos = Raise (RuntimeError_http_status c) <->
  exists body, net (objParams s e pos) = Some (mkresponse c body) /\ c <> 200.
Proof.
  unfold fetch_page, requests_get. split.
  - destruct (net (objParams s e pos)) as [[status body]|]; simpl; [|discriminate].
    unfold page_records, response_json. simpl.
    destruct (Z.eqb_spec status 200) as [->|Hne]; simpl.
    + destruct body as [objJson|]; simpl; [|discriminate].
      destruct (py_contains "meetingRecord" objJson) as [[|]|err] eqn:Ec; simpl;
        try discriminate.
      * destruct (py_getitem objJson "meetingRecord") as [v|err] eqn:Eg; simpl.
        -- destruct v; discriminate.
        -- destruct objJson; simpl in Eg; try (injection Eg as <-; discriminate).
           destruct (dict_lookup "meetingRecord" members);
             [discriminate | injection Eg as <-; discriminate].
      * destruct objJson; simpl in Ec; try discriminate;
          injection Ec as <-; discriminate.
    + intros H. injection H as <-. eauto.
  - intros (body & -> & Hne). simpl. unfold page_records. simpl.
    destruct (Z.eqb_spec c 200); [contradiction | reflexivity].
Qed.

Section FetchLoop.
Variable net : network.
Variables s e : string.

(** The loop over pages that are there and not empty. *)
Lemma fetch_loop_pages (pages : list (list json)) :
  forall (fuel i0 : nat) (acc : list json),
    (forall i p, nth_error pages i = Some p ->
                 fetch_page net s e (offset (i0 + i)) = Ok p /\ p <> []) ->
    fetch_loop (List.length pages + fuel) net s e (offset i0) acc
    = mkrun
        (map (fun i => objParams s e (offset i)) (seq i0 (List.length pages))
           ++ sent (fetch_loop fuel net s e (offset (i0 + List.length pages))
                      (acc ++ List.concat pages)))%list
        (outcome (fetch_loop fuel net s e (offset (i0 + List.length pages))
                    (acc ++ List.concat pages))).
Proof.
  induction pages as [|p pages IH]; intros fuel i0 acc H.
  - simpl. rewrite Nat.add_0_r, app_nil_r.
    now destruct (fetch_loop fuel net s e (offset i0) acc).
  - destruct (H 0%nat p eq_refl) as [Hp Hne]. rewrite Nat.add_0_r in Hp.
    simpl List.length. simpl Nat.add. simpl fetch_loop. rewrite Hp.
    destruct p as [|x p]; [congruence|].
    rewrite <- offset_S. rewrite (IH fuel (S i0)).
    + simpl. rewrite <- app_assoc. rewrite Nat.add_succ_r. reflexivity.
    + intros i q Hq. apply (H (S i) q) in Hq.
      now rewrite Nat.add_succ_r in Hq.
Qed.

(** How a loop that ended has run. *)
Lemma fetch_loop_ended (fuel : nat) :
  forall (i0 : nat) (acc : list json) (res : result (list json)),
    outcome (fetch_loop fuel net s e (offset i0) acc) = Some res ->
    exists pages,
      (List.length pages < fuel)%nat /\
      (forall i p, nth_error pages i = Some p ->
                   fetch_page net s e (offset (i0 + i)) = Ok p /\ p <> []) /\
      sent (fetch_loop fuel net s e (offset i0) acc)
      = map (fun i => objParams s e (offset i)) (seq i0 (S (List.length pages))) /\
      ((fetch_page net s e (offset (i0 + List.length pages)) = Ok [] /\
        res = Ok (acc ++ List.concat pages)%list) \/
       (exists err, fetch_page net s e (offset (i0 + List.length pages)) = Raise err /\
                    res = Raise err)).
Proof.
  induction fuel as [|fuel IH]; intros i0 acc res; simpl; [discriminate|].
  destruct (fetch_page net s e (offset i0)) as [[|x p]|err] eqn:Ep; simpl.
  - intros H. injection H as <-. exists []. simpl. rewrite Nat.add_0_r.
    split; [lia|]. split; [intros [|i] p H; discriminate|].
    split; [reflexivity|]. left. now rewrite app_nil_r.
  - rewrite <- offset_S. intros H.
    destruct (IH (S i0) _ res H) as (pages & Hlen & Hpages & Hsent & Hend).
    exists ((x :: p) :: pages). simpl List.length.
    split; [lia|]. split; [|split].
    + intros [|i] q Hq; simpl in Hq.
      * injection Hq as <-. rewrite Nat.add_0_r. split; [exact Ep | discriminate].
      * rewrite Nat.add_succ_r. now apply Hpages.
    + rewrite Hsent. reflexivity.
    + rewrite Nat.add_succ_r. rewrite <- app_assoc in Hend. exact Hend.
  - intros H. injection H as <-. exists []. simpl. rewrite Nat.add_0_r.
    split; [lia|]. split; [intros [|i] p H; discriminate|].
    split; [reflexivity|]. right. eauto.
Qed.

Lemma serves_fetch_page (pages : list (list json)) :
  serves net s e pages <->
  (forall i p, nth_error pages i = Some p ->
               fetch_page net s e (offset (0 + i)) = Ok p /\ p <> []).
Proof.
  unfold serves. split; intros H i p Hp; destruct (H i p Hp) as [H1 H2];
    (split; [now apply delivers_fetch_page | exact H2]).
Qed.

(** A fetch whose pages are served and whose next page ends it with
    [res]. *)
Lemma fetch_run (pages : list (list json)) (fuel : nat) (last : result (list json)) :
  serves net s e pages ->
  (List.length pages < fuel)%nat ->
  fetch_page net s e (offset (List.length pages)) = last ->
  (last = Ok [] \/ exists err, last = Raise err) ->
  fetch_meeting_records fuel net s e
  = mkrun (queries s e (S (List.length pages)))
      (Some (match last with
             | Ok _ => Ok (List.concat pages)
             | Raise err => Raise err
             end)).
Proof.
  intros Hserves Hlen Hlast Hend. unfold fetch_meeting_records, queries.
  replace fuel with (List.length pages + S (fuel - S (List.length pages)))%nat by lia.
  change 1 with (offset 0).
  rewrite fetch_loop_pages by (now apply serves_fetch_page).
  simpl Nat.add. simpl fetch_loop. rewrite Hlast.
  rewrite seq_S, map_app. simpl.
  destruct Hend as [->|[err ->]]; reflexivity.
Qed.
End FetchLoop.

Lemma offsets_increasing (n i0 : nat) :
  StronglySorted Z.lt (map (fun i => 1 + 100 * Z.of_nat i) (seq i0 n)).
Proof.
  revert i0. induction n as [|n IH]; intros i0; cbn [seq map]; constructor.
  - apply IH.
  - apply Forall_forall. intros z Hz. apply in_map_iff in Hz.
    destruct Hz as (j & <- & Hj). apply in_seq in Hj. cbv beta. lia.
Qed.

Lemma queries_positions (s e : string) (n : nat) :
  map recordPosition (queries s e n)
  = map (fun i => 1 + 100 * Z.of_nat i) (seq 0 n).
Proof. unfold queries. rewrite map_map. reflexivity. Qed.

(** Whatever the server does and however long the loop runs, the requests
    sent are the first ones of the sequence of offsets: no query is sent
    twice. *)
Lemma fetch_loop_sent (net : network) (s e : string) (fuel : nat) :
  forall i0 acc,
  exists n,
    sent (fetch_loop fuel net s e (offset i0) acc)
    = map (fun i => objParams s e (offset i)) (seq i0 n).
Proof.
  induction fuel as [|fuel IH]; intros i0 acc; simpl.
  - exists 0%nat. reflexivity.
  - destruct (fetch_page net s e (offset i0)) as [[|x p]|err];
      try (exists 1%nat; reflexivity).
    rewrite <- offset_S. destruct (IH (S i0) (acc ++ x :: p)%list) as [n Hn].
    exists (S n). simpl. now rewrite Hn.
Qed.

(** A server that never sends an empty page keeps the loop going. *)
Lemma fetch_loop_runs_on (net : network) (s e : string) (fuel : nat) :
  (forall i, exists p, fetch_page net s e (offset i) = Ok p /\ p <> []) ->
  forall i0 acc, outcome (fetch_loop fuel net s e (offset i0) acc) = None.
Proof.
  intros H. induction fuel as [|fuel IH]; intros i0 acc; simpl; [reflexivity|].
  destruct (H i0) as (p & -> & Hne). destruct p as [|x p]; [congruence|].
  simpl. rewrite <- offset_S. apply IH.
Qed.

(** C2, as the code has it.  When the server answers the successive
    requests with non-empty pages and then with an empty one, the fetch
    sends its requests at the offsets 1, 101, 201, ..., one per page and a
    last one for the empty page, each greater than the one before, and
    returns the pages joined in the order of the requests. *)
Theorem fetch_meeting_records_pages
    (net : network) (s e : string) (pages : list (list json)) (fuel : nat) :
  serves net s e pages ->
  delivers net s e (List.length pages) [] ->
  (List.length pages < fuel)%nat ->
  outcome (fetch_meeting_records fuel net s e) = Some (Ok (List.concat pages)) /\
  sent (fetch_meeting_records fuel net s e) = queries s e (S (List.length pages)) /\
  map recordPosition (sent (fetch_meeting_records fuel net s e))
  = map (fun i => 1 + 100 * Z.of_nat i) (seq 0 (S (List.length pages))) /\
  StronglySorted Z.lt (map recordPosition (sent (fetch_meeting_records fuel net s e))).
Proof.
  intros Hserves Hlast Hfuel. apply delivers_fetch_page in Hlast.
  rewrite (fetch_run net s e pages fuel (Ok []) Hserves Hfuel Hlast (or_introl eq_refl)).
  simpl outcome. simpl sent. rewrite queries_positions.
  repeat split. apply offsets_increasing.
Qed.

Lemma fetch_meeting_records_pages_witness :
  outcome (fetch_meeting_records 5 net_single_record "2023-01-01" "2023-12-31")
  = Some (Ok (List.concat [[meeting (JInt 210) (JStr "2023-01-23")]])) /\
  sent (fetch_meeting_records 5 net_single_record "2023-01-01" "2023-12-31")
  = queries "2023-01-01" "2023-12-31" 2 /\
  map recordPosition (sent (fetch_meeting_records 5 net_single_record "2023-01-01" "2023-12-31"))
  = map (fun i => 1 + 100 * Z.of_nat i) (seq 0 2) /\
  StronglySorted Z.lt
    (map recordPosition (sent (fetch_meeting_records 5 net_single_record "2023-01-01" "2023-12-31"))).
Proof.
  apply (fetch_meeting_records_pages net_single_record "2023-01-01" "2023-12-31"
           [[meeting (JInt 210) (JStr "2023-01-23")]] 5).
  - intros [|[|i]] p H; simpl in H; try discriminate.
    injection H as <-. split; [|discriminate].
    exists [("meetingRecord", JList [meeting (JInt 210) (JStr "2023-01-23")])].
    split; reflexivity.
  - exists [("meetingRecord", JList [])]. split; reflexivity.
  - simpl. lia.
Defined.

(** C2 as stated fails: against a server holding one record the fetch sends
    two requests, at the offsets 1 and 101, which is no initial segment of
    0, 100, 200, ... *)
Lemma fetch_meeting_records_offsets_not_from_zero :
  map recordPosition
    (sent (fetch_meeting_records 5 net_single_record "2023-01-01" "2023-12-31"))
  = [1; 101] /\
  ~ exists n,
      map recordPosition
        (sent (fetch_meeting_records 5 net_single_record "2023-01-01" "2023-12-31"))
      = map (fun i => 100 * Z.of_nat i) (seq 0 n).
Proof.
  split; [reflexivity|].
  intros [n H]. change (map recordPosition _) with [1; 101] in H.
  destruct n as [|n]; simpl in H; discriminate.
Qed.

(** ** The status of a response *)

(** C3, as the code has it.  The fetch raises the status error exactly when
    a response has a status other than 200, the responses before it being
    non-empty pages: a 200 never raises it, any other status raises it at
    once.  The failing request is the last one sent, once, and the caller
    gets the exception and no record. *)
Theorem fetch_meeting_records_status_error
    (net : network) (s e : string) (fuel : nat) (c : Z) :
  (outcome (fetch_meeting_records fuel net s e)
   = Some (Raise (RuntimeError_http_status c)) ->
   exists pages body,
     (List.length pages < fuel)%nat /\
     serves net s e pages /\
     net (objParams s e (offset (List.length pages))) = Some (mkresponse c body) /\
     c <> 200 /\
     sent (fetch_meeting_records fuel net s e) = queries s e (S (List.length pages))) /\
  (forall pages body,
     (List.length pages < fuel)%nat ->
     serves net s e pages ->
     net (objParams s e (offset (List.length pages))) = Some (mkresponse c body) ->
     c <> 200 ->
     fetch_meeting_records fuel net s e
     = mkrun (queries s e (S (List.length pages)))
         (Some (Raise (RuntimeError_http_status c)))).
Proof.
  split.
  - unfold fetch_meeting_records. change 1 with (offset 0). intros H.
    destruct (fetch_loop_ended net s e fuel 0 [] _ H)
      as (pages & Hlen & Hpages & Hsent & Hend).
    destruct Hend as [[_ Habs]|(err & Hpage & Herr)]; [discriminate|].
    injection Herr as <-. simpl in Hpage.
    apply fetch_page_status_error in Hpage. destruct Hpage as (body & Hnet & Hne).
    exists pages, body.
    split; [exact Hlen|].
    split; [apply serves_fetch_page; exact Hpages|].
    split; [exact Hnet|]. split; [exact Hne | exact Hsent].
  - intros pages body Hlen Hserves Hnet Hne.
    assert (Hpage : fetch_page net s e (offset (List.length pages))
                    = Raise (RuntimeError_http_status c)).
    { apply fetch_page_status_error. eauto. }
    rewrite (fetch_run net s e pages fuel _ Hserves Hlen Hpage); [reflexivity|].
    right. eauto.
Qed.

Lemma fetch_meeting_records_status_error_witness :
  fetch_meeting_records 5 net_server_error "2023-01-01" "2023-12-31"
  = mkrun (queries "2023-01-01" "2023-12-31" 1)
      (Some (Raise (RuntimeError_http_status 500))).
Proof.
  apply (proj2 (fetch_meeting_records_status_error
                  net_server_error "2023-01-01" "2023-12-31" 5 500) [] None).
  - simpl. lia.
  - intros [|i] p H; discriminate H.
  - reflexivity.
  - lia.
Defined.

(** C3 as stated fails: 203 is a 2xx status, and a response with it, even
    one that carries a page, makes the fetch raise the status error. *)
Lemma fetch_meeting_records_raises_on_203 :
  is_2xx 203 = true /\
  fetch_meeting_records 5 net_non_authoritative "2023-01-01" "2023-12-31"
  = mkrun (queries "2023-01-01" "2023-12-31" 1)
      (Some (Raise (RuntimeError_http_status 203))).
Proof. split; reflexivity. Qed.

(** ** The shape of a response and of a record *)

Lemma fetch_page_no_meetingRecord (net : network) (s e : string) (pos : Z) (objJson : json) :
  net (objParams s e pos) = Some (mkresponse 200 (Some objJson)) ->
  py_contains "meetingRecord" objJson = Ok false ->
  fetch_page net s e pos = Raise ValueError_meetingRecord_missing.
Proof.
  intros Hnet Hc. unfold fetch_page, requests_get. rewrite Hnet. simpl.
  unfold page_records, response_json. simpl. now rewrite Hc.
Qed.

Lemma py_getitem_contains (objJson v : json) (pszKey : string) :
  py_getitem objJson pszKey = Ok v -> py_contains pszKey objJson = Ok true.
Proof.
  destruct objJson; simpl; try discriminate.
  now destruct (dict_lookup pszKey members).
Qed.

Lemma fetch_page_not_list (net : network) (s e : string) (pos : Z) (objJson v : json) :
  net (objParams s e pos) = Some (mkresponse 200 (Some objJson)) ->
  py_getitem objJson "meetingRecord" = Ok v ->
  (forall items, v <> JList items) ->
  fetch_page net s e pos = Raise ValueError_meetingRecord_not_list.
Proof.
  intros Hnet Hg Hv. unfold fetch_page, requests_get. rewrite Hnet. simpl.
  unfold page_records, response_json. simpl.
  rewrite (py_getitem_contains _ _ _ Hg). simpl. rewrite Hg. simpl.
  destruct v; try reflexivity. exfalso. now apply (Hv items).
Qed.

Lemma read_record_field_missing (members : list (string * json)) :
  dict_lookup "session" members = None \/ dict_lookup "date" members = None ->
  read_record (JObj members) = Raise ValueError_session_or_date_missing.
Proof.
  intros H. unfold read_record. simpl.
  destruct (dict_lookup "session" members); simpl; [|reflexivity].
  destruct H as [H|H]; [discriminate|]. now rewrite H.
Qed.

Lemma aggregate_sessions_field_missing
    (pre post : list json) (members : list (string * json)) :
  Forall readable_record pre ->
  dict_lookup "session" members = None \/ dict_lookup "date" members = None ->
  aggregate_sessions (pre ++ JObj members :: post)
  = Raise ValueError_session_or_date_missing.
Proof.
  intros Hpre Hmiss. rewrite aggregate_sessions_read, read_records_app.
  destruct (read_records_all pre) as [xs ->].
  { intros rec Hin. apply readable_record_read.
    rewrite Forall_forall in Hpre. auto. }
  simpl. now rewrite read_record_field_missing.
Qed.

Lemma aggregate_sessions_field_missing_raises
    (pre post : list json) (members : list (string * json)) :
  dict_lookup "session" members = None \/ dict_lookup "date" members = None ->
  exists err, aggregate_sessions (pre ++ JObj members :: post) = Raise err.
Proof.
  intros Hmiss. rewrite aggregate_sessions_read.
  destruct (read_records_raise (pre ++ JObj members :: post)) as [err ->];
    [|simpl; eauto].
  exists (JObj members), ValueError_session_or_date_missing.
  split; [apply in_or_app; right; now left|].
  now apply read_record_field_missing.
Qed.

Lemma fs_read_store (pszPath pszContents : string) (fs : file_system) :
  fs_read pszPath (fs_store pszPath pszContents fs) = Some pszContents.
Proof. unfold fs_read, fs_store. simpl. now rewrite String.eqb_refl. Qed.

Section Script.
Variables pszStartDateArg pszEndDateArg : option string.
Variables objToday objStartDate objEndDate : date.
Variable fuel : nat.
Variable net : network.
Variable fs : file_system.
Hypothesis Hargs :
  parse_arguments pszStartDateArg pszEndDateArg objToday
  = Ok (objStartDate, objEndDate).

(** An exception of the fetch ends the script with the files as they
    were. *)
Lemma main_fetch_raises (qs : list request_params) (err : exn) :
  fetch_meeting_records fuel net (isoformat objStartDate) (isoformat objEndDate)
  = mkrun qs (Some (Raise err)) ->
  main pszStartDateArg pszEndDateArg objToday fuel net fs
  = mkscript qs fs (Some (Raise err)).
Proof. intros H. unfold main. rewrite Hargs, H. reflexivity. Qed.

(** So does an exception of the aggregation. *)
Lemma main_aggregate_raises
    (qs : list request_params) (records : list json) (err : exn) :
  fetch_meeting_records fuel net (isoformat objStartDate) (isoformat objEndDate)
  = mkrun qs (Some (Ok records)) ->
  aggregate_sessions records = Raise err ->
  main pszStartDateArg pszEndDateArg objToday fuel net fs
  = mkscript qs fs (Some (Raise err)).
Proof. intros H Hagg. unfold main. rewrite Hargs, H. simpl. now rewrite Hagg. Qed.

(** C4.  After any number of good pages, a response without
    ["meetingRecord"], a response whose ["meetingRecord"] is not a list,
    and, once the pages are fetched, a record without ["session"] or
    without ["date"] each end the script with the corresponding
    [ValueError] of the script, and with the file system as it was: no
    file is written. *)
Theorem response_shape_errors_abort (pages : list (list json)) (objJson : json) :
  (List.length pages < fuel)%nat ->
  serves net (isoformat objStartDate) (isoformat objEndDate) pages ->
  net (objParams (isoformat objStartDate) (isoformat objEndDate)
         (offset (List.length pages)))
  = Some (mkresponse 200 (Some objJson)) ->
  (py_contains "meetingRecord" objJson = Ok false ->
   main pszStartDateArg pszEndDateArg objToday fuel net fs
   = mkscript (queries (isoformat objStartDate) (isoformat objEndDate)
                 (S (List.length pages)))
       fs (Some (Raise ValueError_meetingRecord_missing))) /\
  (forall v,
      py_getitem objJson "meetingRecord" = Ok v ->
      (forall items, v <> JList items) ->
      main pszStartDateArg pszEndDateArg objToday fuel net fs
      = mkscript (queries (isoformat objStartDate) (isoformat objEndDate)
                    (S (List.length pages)))
          fs (Some (Raise ValueError_meetingRecord_not_list))) /\
  (forall pre members post,
      py_getitem objJson "meetingRecord" = Ok (JList []) ->
      List.concat pages = (pre ++ JObj members :: post)%list ->
      dict_lookup "session" members = None \/ dict_lookup "date" members = None ->
      (exists err,
          main pszStartDateArg pszEndDateArg objToday fuel net fs
          = mkscript (queries (isoformat objStartDate) (isoformat objEndDate)
                        (S (List.length pages)))
              fs (Some (Raise err))) /\
      (Forall readable_record pre ->
       main pszStartDateArg pszEndDateArg objToday fuel net fs
       = mkscript (queries (isoformat objStartDate) (isoformat objEndDate)
                     (S (List.length pages)))
           fs (Some (Raise ValueError_session_or_date_missing)))).
Proof.
  intros Hlen Hserves Hnet. split; [|split].
  - intros Hc. apply main_fetch_raises.
    rewrite (fetch_run net _ _ pages fuel _ Hserves Hlen
               (fetch_page_no_meetingRecord _ _ _ _ _ Hnet Hc));
      [reflexivity | right; eauto].
  - intros v Hg Hv. apply main_fetch_raises.
    rewrite (fetch_run net _ _ pages fuel _ Hserves Hlen
               (fetch_page_not_list _ _ _ _ _ _ Hnet Hg Hv));
      [reflexivity | right; eauto].
  - intros pre members post Hg Hcat Hmiss.
    assert (Hpage : fetch_page net (isoformat objStartDate) (isoformat objEndDate)
                      (offset (List.length pages)) = Ok []).
    { apply delivers_fetch_page.
      destruct objJson; simpl in Hg; try discriminate.
      destruct (dict_lookup "meetingRecord" members0) as [v|] eqn:El;
        [|discriminate].
      injection Hg as ->. exists members0. now rewrite Hnet. }
    assert (Hfetch :
              fetch_meeting_records fuel net (isoformat objStartDate) (isoformat objEndDate)
              = mkrun (queries (isoformat objStartDate) (isoformat objEndDate)
                         (S (List.length pages)))
                  (Some (Ok (List.concat pages)))).
    { rewrite (fetch_run net _ _ pages fuel _ Hserves Hlen Hpage);
        [reflexivity | now left]. }
    split.
    + destruct (aggregate_sessions_field_missing_raises pre post members Hmiss)
        as [err Herr].
      exists err. apply (main_aggregate_raises _ (List.concat pages));
        [exact Hfetch | now rewrite Hcat].
    + intros Hpre. apply (main_aggregate_raises _ (List.concat pages));
        [exact Hfetch|].
      rewrite Hcat. now apply aggregate_sessions_field_missing.
Qed.
End Script.

Lemma response_shape_errors_abort_witness :
  main (Some "2023-01-01") (Some "2023-12-31") today_sample 5
    net_no_meetingRecord fs_empty
  = mkscript (queries "2023-01-01" "2023-12-31" 1) fs_empty
      (Some (Raise ValueError_meetingRecord_missing)) /\
  main (Some "2023-01-01") (Some "2023-12-31") today_sample 5
    net_meetingRecord_str fs_empty
  = mkscript (queries "2023-01-01" "2023-12-31" 1) fs_empty
      (Some (Raise ValueError_meetingRecord_not_list)) /\
  main (Some "2023-01-01") (Some "2023-12-31") today_sample 5
    net_record_without_date fs_empty
  = mkscript (queries "2023-01-01" "2023-12-31" 2) fs_empty
      (Some (Raise ValueError_session_or_date_missing)).
Proof.
  split; [|split].
  - apply (proj1 (response_shape_errors_abort
                    (Some "2023-01-01") (Some "2023-12-31") today_sample
                    (mkdate 2023 1 1) (mkdate 2023 12 31) 5
                    net_no_meetingRecord fs_empty eq_refl
                    [] (JObj [("message", JStr "no records")])
                    ltac:(simpl; lia)
                    ltac:(intros [|i] p H; discriminate H)
                    eq_refl)).
    reflexivity.
  - apply (proj1 (proj2 (response_shape_errors_abort
                    (Some "2023-01-01") (Some "2023-12-31") today_sample
                    (mkdate 2023 1 1) (mkdate 2023 12 31) 5
                    net_meetingRecord_str fs_empty eq_refl
                    [] (JObj [("meetingRecord", JStr "none")])
                    ltac:(simpl; lia)
                    ltac:(intros [|i] p H; discriminate H)
                    eq_refl)) (JStr "none")).
    + reflexivity.
    + intros items H. discriminate H.
  - apply (proj2 (proj2 (proj2 (response_shape_errors_abort
                    (Some "2023-01-01") (Some "2023-12-31") today_sample
                    (mkdate 2023 1 1) (mkdate 2023 12 31) 5
                    net_record_without_date fs_empty eq_refl
                    [[JObj [("session", JInt 210)]]] (page_json [])
                    ltac:(simpl; lia)
                    ltac:(intros [|[|i]] p H; simpl in H; try discriminate H;
                          injection H as <-;
                          split; [exists [("meetingRecord", JList [JObj [("session", JInt 210)]])];
                                  split; reflexivity | discriminate])
                    eq_refl)) [] [("session", JInt 210)] []
                 eq_refl eq_refl (or_intror eq_refl))).
    constructor.
Defined.

(** ** No record at all *)

(** C10.  [aggregate_sessions] returns the empty list for the empty list,
    [write_tsv] then stores in the file the header row and nothing else,
    and so does the script when the first page of the fetch is empty. *)
Theorem empty_fetch_header_only :
  aggregate_sessions [] = Ok [] /\
  (forall pszOutputPath fs,
      fs_writable fs pszOutputPath = true ->
      snd (write_tsv [] pszOutputPath fs) = Ok tt /\
      fs_read pszOutputPath (fst (write_tsv [] pszOutputPath fs))
      = Some header_line) /\
  (forall pszStartDateArg pszEndDateArg objToday objStartDate objEndDate fuel net fs,
      parse_arguments pszStartDateArg pszEndDateArg objToday
      = Ok (objStartDate, objEndDate) ->
      delivers net (isoformat objStartDate) (isoformat objEndDate) 0 [] ->
      (0 < fuel)%nat ->
      fs_writable fs pszOutputFile = true ->
      script_outcome (main pszStartDateArg pszEndDateArg objToday fuel net fs)
      = Some (Ok tt) /\
      fs_read pszOutputFile
        (script_fs (main pszStartDateArg pszEndDateArg objToday fuel net fs))
      = Some header_line).
Proof.
  split; [reflexivity|]. split.
  - intros path fs Hw. unfold write_tsv. rewrite Hw. simpl.
    split; [reflexivity | apply fs_read_store].
  - intros a1 a2 today ds de fuel net fs Hargs Hpage Hfuel Hw.
    apply delivers_fetch_page in Hpage.
    unfold main. rewrite Hargs.
    rewrite (fetch_run net _ _ [] fuel (Ok []));
      [| intros [|i] p H; discriminate H | exact Hfuel | exact Hpage | now left].
    simpl. unfold write_tsv. rewrite Hw. simpl.
    split; [reflexivity | apply fs_read_store].
Qed.

Lemma empty_fetch_header_only_witness :
  (snd (write_tsv [] pszOutputFile fs_empty) = Ok tt /\
   fs_read pszOutputFile (fst (write_tsv [] pszOutputFile fs_empty))
   = Some header_line) /\
  (script_outcome
     (main (Some "2023-01-01") (Some "2023-12-31") today_sample 5 net_empty fs_empty)
   = Some (Ok tt) /\
   fs_read pszOutputFile
     (script_fs
        (main (Some "2023-01-01") (Some "2023-12-31") today_sample 5 net_empty fs_empty))
   = Some header_line).
Proof.
  split.
  - apply (proj1 (proj2 empty_fetch_header_only) pszOutputFile fs_empty).
    reflexivity.
  - apply (proj2 (proj2 empty_fetch_header_only)
             (Some "2023-01-01") (Some "2023-12-31") today_sample
             (mkdate 2023 1 1) (mkdate 2023 12 31) 5%nat net_empty fs_empty).
    + reflexivity.
    + exists [("meetingRecord", JList [])]. split; reflexivity.
    + lia.
    + reflexivity.
Defined.

(** ** Scenarios of the specification *)

Example ex_py_contains :
  map (py_contains "session")
    [JObj [("session", JInt 1)]; JObj [("date", JNull)]; JList [JStr "session"];
     JList [JInt 1]; JStr "a session"; JStr "date"; JInt 210; JNull]
  = [Ok true; Ok false; Ok true; Ok false; Ok true; Ok false;
     Raise TypeError; Raise TypeError].
Proof. reflexivity. Qed.

(** A response with status 500: a transport error, one request, no file. *)
Example ex_status_500 :
  main (Some "2023-01-01") (Some "2023-12-31") today_sample 5
    net_server_error fs_empty
  = mkscript (queries "2023-01-01" "2023-12-31" 1) fs_empty
      (Some (Raise (RuntimeError_http_status 500))) /\
  is_transport_error (RuntimeError_http_status 500) = true.
Proof. split; reflexivity. Qed.

(** A record without ["date"]: a response-shape error, no file. *)
Example ex_record_without_date :
  main (Some "2023-01-01") (Some "2023-12-31") today_sample 5
    net_record_without_date fs_empty
  = mkscript (queries "2023-01-01" "2023-12-31" 2) fs_empty
      (Some (Raise ValueError_session_or_date_missing)) /\
  is_response_shape_error ValueError_session_or_date_missing = true.
Proof. split; reflexivity. Qed.

(** One record on the server: two requests, one file of two lines. *)
Example ex_single_record :
  script_outcome
    (main None None today_sample 5 net_single_record fs_empty) = Some (Ok tt) /\
  map recordPosition
    (script_sent (main None None today_sample 5 net_single_record fs_empty))
  = [1; 101] /\
  map startDate
    (script_sent (main None None today_sample 5 net_single_record fs_empty))
  = ["2026-10-05"; "2026-10-05"] /\
  fs_read pszOutputFile
    (script_fs (main None None today_sample 5 net_single_record fs_empty))
  = Some (header_line ++ writerow ["210"; "2023-01-23"; "2023-01-23"]).
Proof. repeat split; reflexivity. Qed.

(** * Further properties of the script *)

(** ** When [aggregate_sessions] returns *)

Lemma read_records_each (l : list json) (xs : list (Z * date)) :
  read_records l = Ok xs ->
  forall rec, In rec l -> exists x, read_record rec = Ok x.
Proof.
  intros H rec Hin. destruct (read_record rec) as [x|err] eqn:E; [eauto|].
  destruct (read_records_raise l) as [err' He]; [eauto|]. congruence.
Qed.

Lemma read_records_length (l : list json) (xs : list (Z * date)) :
  read_records l = Ok xs -> List.length xs = List.length l.
Proof.
  revert xs. induction l as [|rec l IH]; simpl; intros xs H.
  - now injection H as <-.
  - destruct (read_record rec); simpl in H; [|discriminate].
    destruct (read_records l) as [xs0|]; simpl in H; [|discriminate].
    injection H as <-. simpl. f_equal. now apply IH.
Qed.

Lemma Forall_readable_read (l : list json) :
  Forall readable_record l -> exists xs, read_records l = Ok xs.
Proof.
  intros H. apply read_records_all. intros rec Hin.
  apply readable_record_read. rewrite Forall_forall in H. auto.
Qed.

(** X2.  The exception of [aggregate_sessions] is the one of the first
    record that cannot be read: the records after it are not looked at. *)
Theorem aggregate_sessions_first_failure
    (pre post : list json) (objMeetingRecord : json) (err : exn) :
  Forall readable_record pre ->
  read_record objMeetingRecord = Raise err ->
  aggregate_sessions (pre ++ objMeetingRecord :: post) = Raise err.
Proof.
  intros Hpre Hrec. rewrite aggregate_sessions_read, read_records_app.
  destruct (Forall_readable_read pre Hpre) as [xs ->]. simpl. now rewrite Hrec.
Qed.

Lemma aggregate_sessions_first_failure_witness :
  aggregate_sessions
    ([meeting (JInt 211) (JStr "2023-10-20")]
       ++ meeting JNull (JStr "2023-13-45") :: [JInt 7])
  = Raise TypeError.
Proof.
  apply (aggregate_sessions_first_failure
           [meeting (JInt 211) (JStr "2023-10-20")] [JInt 7]
           (meeting JNull (JStr "2023-13-45")) TypeError).
  - repeat constructor.
    apply (meeting_readable (JInt 211) "2023-10-20" 211 (mkdate 2023 10 20));
      reflexivity.
  - reflexivity.
Defined.

(** ** What the result depends on *)

Lemma aggregate_sessions_same_items (xs xs' : list (Z * date)) :
  (forall x, In x xs <-> In x xs') ->
  sorted_desc (map session_entry (record_all xs []))
  = sorted_desc (map session_entry (record_all xs' [])).
Proof.
  intros Hin.
  pose proof (record_all_summarises xs) as Hm.
  pose proof (record_all_summarises xs') as Hm'.
  assert (Hm2 : summarises xs (record_all xs' [])).
  { apply (summarises_same_items xs'); [|exact Hm']. intros x. symmetry. apply Hin. }
  pose proof (summarises_functional xs _ _ Hm Hm2) as Hfun.
  apply strictly_descending_unique.
  - apply sorted_desc_strict, Hm.
  - apply sorted_desc_strict, Hm'.
  - intros row. rewrite !In_sorted_entries by (apply Hm || apply Hm').
    now rewrite Hfun.
Qed.

(** X3.  Records that repeat records already in the list change nothing:
    appending to [l] any records taken from [l] gives the same result, the
    same list or the same exception. *)
Theorem aggregate_sessions_repeated_records (l l' : list json) :
  incl l' l ->
  aggregate_sessions (l ++ l') = aggregate_sessions l.
Proof.
  intros Hincl. rewrite !aggregate_sessions_read, read_records_app.
  destruct (read_records l) as [xs|err] eqn:E; simpl; [|reflexivity].
  destruct (read_records_all l') as [xs' E'].
  { intros rec Hin. apply (read_records_each l xs E). now apply Hincl. }
  rewrite E'. simpl. f_equal. apply aggregate_sessions_same_items.
  intros x. rewrite in_app_iff. split; [|auto].
  intros [H|H]; [exact H|].
  apply (read_records_In l' xs' E') in H. destruct H as (rec & Hin & Hr).
  apply (read_records_In l xs E). exists rec. split; [now apply Hincl | exact Hr].
Qed.

Lemma aggregate_sessions_repeated_records_witness :
  aggregate_sessions (scenario_records ++ scenario_records)
  = aggregate_sessions scenario_records.
Proof.
  apply (aggregate_sessions_repeated_records scenario_records scenario_records).
  apply incl_refl.
Defined.

(** X4.  The returned list has at most as many items as there are records,
    and it is empty only for the empty list of records. *)
Theorem aggregate_sessions_length (l : list json) (rows : list session_row) :
  aggregate_sessions l = Ok rows ->
  (List.length rows <= List.length l)%nat /\ (rows = [] <-> l = []).
Proof.
  rewrite aggregate_sessions_read.
  destruct (read_records l) as [xs|err] eqn:E; simpl; [|discriminate].
  intros H. injection H as <-.
  pose proof (record_all_summarises xs) as Hsum.
  destruct (rows_of_summary xs _ Hsum) as (_ & Hnd & Hkeys & _).
  split.
  - rewrite <- (read_records_length l xs E), <- (length_map fst xs).
    rewrite <- (length_map iSession).
    apply NoDup_incl_length; [exact Hnd|].
    intros k Hk. apply Hkeys in Hk. destruct Hk as [d Hd].
    change k with (fst (k, d)). now apply in_map.
  - split.
    + intros Hnil. destruct l as [|rec l]; [reflexivity|]. exfalso.
      destruct (read_records_each _ xs E rec (or_introl eq_refl)) as [[k d] Hr].
      assert (Hk : In k (map iSession (sorted_desc (map session_entry (record_all xs []))))).
      { apply Hkeys. exists d. apply (read_records_In _ xs E).
        exists rec. split; [now left | exact Hr]. }
      rewrite Hnil in Hk. exact Hk.
    + intros ->. simpl in E. injection E as <-. reflexivity.
Qed.

Lemma aggregate_sessions_length_witness :
  (List.length [mkrow 211 "2023-10-20" "2023-10-20"; mkrow 210 "2023-01-23" "2023-06-21"]
   <= List.length scenario_records)%nat /\
  ([mkrow 211 "2023-10-20" "2023-10-20"; mkrow 210 "2023-01-23" "2023-06-21"] = []
   <-> scenario_records = []).
Proof.
  apply (aggregate_sessions_length scenario_records). reflexivity.
Defined.

(** ** The dates of the returned items *)

Lemma date_of_isoformat_valid (s : string) (d : date) :
  date_of_isoformat s = Some d -> valid_date d = true.
Proof.
  unfold date_of_isoformat.
  destruct (list_ascii_of_string s)
    as [|y1 [|y2 [|y3 [|y4 [|s1 [|m1 [|m2 [|s2 [|d1 [|d2 [|x l]]]]]]]]]]];
    try discriminate.
  destruct (Ascii.eqb s1 minus_sign && Ascii.eqb s2 minus_sign); [|discriminate].
  destruct (number4 y1 y2 y3 y4); [|discriminate].
  destruct (number2 m1 m2); [|discriminate].
  destruct (number2 d1 d2); [|discriminate].
  destruct (valid_date _) eqn:E; [|discriminate].
  intros H. injection H as <-. exact E.
Qed.

Lemma read_record_valid (rec : json) (k : Z) (d : date) :
  read_record rec = Ok (k, d) -> valid_date d = true.
Proof.
  unfold read_record.
  destruct rec as [| | | | s|items|members]; simpl; try discriminate.
  - destruct (is_substring "session" s); simpl;
      [destruct (is_substring "date" s)|]; discriminate.
  - destruct (existsb (json_is_str "session") items); simpl;
      [destruct (existsb (json_is_str "date") items)|]; discriminate.
  - destruct (dict_lookup "session" members) as [vs|]; simpl; [|discriminate].
    destruct (dict_lookup "date" members) as [vd|]; simpl; [|discriminate].
    destruct (py_int vs); simpl; [|discriminate].
    destruct vd; simpl; try discriminate. unfold fromisoformat_str.
    destruct (date_of_isoformat s) as [d0|] eqn:E; simpl; [|discriminate].
    intros H. injection H as _ <-. now apply (date_of_isoformat_valid s).
Qed.

Lemma rows_of_records (l : list json) (xs : list (Z * date)) (row : session_row) :
  read_records l = Ok xs ->
  In row (sorted_desc (map session_entry (record_all xs []))) ->
  exists r,
    row = session_entry (iSession row, r) /\
    date_of_isoformat (pszStartDate row) = Some (objStartDate r) /\
    date_of_isoformat (pszEndDate row) = Some (objEndDate r) /\
    In (iSession row, objStartDate r) xs /\
    In (iSession row, objEndDate r) xs /\
    forall d, In (iSession row, d) xs ->
              date_le (objStartDate r) d /\ date_le d (objEndDate r).
Proof.
  intros E Hrow.
  destruct (rows_of_summary xs _ (record_all_summarises xs)) as (_ & _ & _ & Hr).
  destruct (Hr row Hrow) as (r & Heq & Hs & He & Hall).
  exists r. split; [exact Heq|].
  assert (Hvalid : forall d, In (iSession row, d) xs -> valid_date d = true).
  { intros d Hd. apply (read_records_In l xs E) in Hd.
    destruct Hd as (rec & _ & Hrec). now apply (read_record_valid rec (iSession row)). }
  split; [rewrite Heq at 1; simpl; apply date_of_isoformat_isoformat; auto|].
  split; [rewrite Heq at 1; simpl; apply date_of_isoformat_isoformat; auto|].
  auto.
Qed.

(** X5.  The two dates of a returned item are texts that
    [date.fromisoformat] reads back: to dates of records of that session,
    the start no later than the end. *)
Theorem aggregate_sessions_dates_read_back
    (l : list json) (rows : list session_row) (row : session_row) :
  aggregate_sessions l = Ok rows ->
  In row rows ->
  exists dStart dEnd,
    date_of_isoformat (pszStartDate row) = Some dStart /\
    date_of_isoformat (pszEndDate row) = Some dEnd /\
    date_le dStart dEnd /\
    session_date l (iSession row) dStart /\
    session_date l (iSession row) dEnd.
Proof.
  rewrite aggregate_sessions_read.
  destruct (read_records l) as [xs|err] eqn:E; simpl; [|discriminate].
  intros H Hrow. injection H as <-.
  destruct (rows_of_records l xs row E Hrow) as (r & _ & Hs & He & Hins & Hine & Hall).
  exists (objStartDate r), (objEndDate r).
  repeat split; try assumption.
  - apply (Hall _ Hins).
  - now apply (session_date_In l xs _ _ E).
  - now apply (session_date_In l xs _ _ E).
Qed.

Lemma aggregate_sessions_dates_read_back_witness :
  exists dStart dEnd,
    date_of_isoformat (pszStartDate (mkrow 210 "2023-01-23" "2023-06-21")) = Some dStart /\
    date_of_isoformat (pszEndDate (mkrow 210 "2023-01-23" "2023-06-21")) = Some dEnd /\
    date_le dStart dEnd /\
    session_date scenario_records (iSession (mkrow 210 "2023-01-23" "2023-06-21")) dStart /\
    session_date scenario_records (iSession (mkrow 210 "2023-01-23" "2023-06-21")) dEnd.
Proof.
  apply (aggregate_sessions_dates_read_back scenario_records
           [mkrow 211 "2023-10-20" "2023-10-20"; mkrow 210 "2023-01-23" "2023-06-21"]).
  - reflexivity.
  - right. left. reflexivity.
Defined.

(** X6.  More records only widen: every session returned for [l] is still
    returned for [l ++ l'], with a start that is no later and an end that
    is no earlier. *)
Theorem aggregate_sessions_more_records_widen
    (l l' : list json) (rows rows' : list session_row) (row : session_row) :
  aggregate_sessions l = Ok rows ->
  aggregate_sessions (l ++ l') = Ok rows' ->
  In row rows ->
  exists row' dStart dEnd dStart' dEnd',
    In row' rows' /\ iSession row' = iSession row /\
    date_of_isoformat (pszStartDate row) = Some dStart /\
    date_of_isoformat (pszEndDate row) = Some dEnd /\
    date_of_isoformat (pszStartDate row') = Some dStart' /\
    date_of_isoformat (pszEndDate row') = Some dEnd' /\
    date_le dStart' dStart /\ date_le dEnd dEnd'.
Proof.
  rewrite !aggregate_sessions_read.
  destruct (read_records l) as [xs|err] eqn:E; simpl; [|discriminate].
  destruct (read_records (l ++ l')) as [ys|err] eqn:E'; simpl; [|discriminate].
  intros H H' Hrow. injection H as <-. injection H' as <-.
  assert (Hsub : forall x, In x xs -> In x ys).
  { intros x Hx. apply (read_records_In l xs E) in Hx.
    destruct Hx as (rec & Hin & Hr). apply (read_records_In _ ys E').
    exists rec. split; [apply in_or_app; now left | exact Hr]. }
  destruct (rows_of_records l xs row E Hrow) as (r & _ & Hs & He & Hins & Hine & _).
  destruct (rows_of_summary ys _ (record_all_summarises ys)) as (_ & _ & Hkeys & _).
  assert (Hk : In (iSession row)
                 (map iSession (sorted_desc (map session_entry (record_all ys []))))).
  { apply Hkeys. exists (objStartDate r). now apply Hsub. }
  apply in_map_iff in Hk. destruct Hk as (row' & Hsame & Hrow').
  destruct (rows_of_records _ ys row' E' Hrow') as (r' & _ & Hs' & He' & _ & _ & Hall').
  rewrite Hsame in Hall'.
  exists row', (objStartDate r), (objEndDate r), (objStartDate r'), (objEndDate r').
  repeat split; try assumption.
  - apply (Hall' _ (Hsub _ Hins)).
  - apply (Hall' _ (Hsub _ Hine)).
Qed.

Lemma aggregate_sessions_more_records_widen_witness :
  exists row' dStart dEnd dStart' dEnd',
    In row' [mkrow 211 "2023-10-20" "2023-10-20"; mkrow 210 "2023-01-23" "2023-06-21"] /\
    iSession row' = iSession (mkrow 210 "2023-01-23" "2023-01-23") /\
    date_of_isoformat (pszStartDate (mkrow 210 "2023-01-23" "2023-01-23")) = Some dStart /\
    date_of_isoformat (pszEndDate (mkrow 210 "2023-01-23" "2023-01-23")) = Some dEnd /\
    date_of_isoformat (pszStartDate row') = Some dStart' /\
    date_of_isoformat (pszEndDate row') = Some dEnd' /\
    date_le dStart' dStart /\ date_le dEnd dEnd'.
Proof.
  apply (aggregate_sessions_more_records_widen
           (firstn 1 scenario_records) (skipn 1 scenario_records)
           [mkrow 210 "2023-01-23" "2023-01-23"]
           [mkrow 211 "2023-10-20" "2023-10-20"; mkrow 210 "2023-01-23" "2023-06-21"]).
  - reflexivity.
  - reflexivity.
  - left. reflexivity.
Defined.

(** ** The requests of a fetch *)

Lemma fetch_loop_sent_bound (net : network) (s e : string) (fuel : nat) :
  forall i0 acc,
  exists n,
    (n <= fuel)%nat /\
    sent (fetch_loop fuel net s e (offset i0) acc)
    = map (fun i => objParams s e (offset i)) (seq i0 n).
Proof.
  induction fuel as [|fuel IH]; intros i0 acc; simpl.
  - exists 0%nat. split; [lia | reflexivity].
  - destruct (fetch_page net s e (offset i0)) as [[|x p]|err];
      try (exists 1%nat; split; [lia | reflexivity]).
    rewrite <- offset_S.
    destruct (IH (S i0) (acc ++ x :: p)%list) as (n & Hle & Hn).
    exists (S n). split; [lia|]. simpl. now rewrite Hn.
Qed.

Lemma increasing_NoDup (l : list Z) : StronglySorted Z.lt l -> NoDup l.
Proof.
  induction 1 as [|x l Hs IH Hall]; constructor; [|exact IH].
  intros Hin. rewrite Forall_forall in Hall. specialize (Hall x Hin). lia.
Qed.

(** X7.  Whatever the server answers and however long the loop runs, the
    requests of a fetch are the first ones of one fixed sequence: they
    differ only in [recordPosition], which goes 1, 101, 201, ...; every one
    carries the meeting name, the two dates given, 100 as page size and
    [json] as packing; no query is sent twice. *)
Theorem fetch_meeting_records_queries (fuel : nat) (net : network) (s e : string) :
  exists n,
    (n <= fuel)%nat /\
    sent (fetch_meeting_records fuel net s e)
    = map (fun i => mkparams "本会議" s e 100 (1 + 100 * Z.of_nat i) "json") (seq 0 n) /\
    NoDup (sent (fetch_meeting_records fuel net s e)).
Proof.
  unfold fetch_meeting_records.
  destruct (fetch_loop_sent_bound net s e fuel 0 []) as (n & Hle & Hn).
  change (offset 0) with 1 in Hn.
  exists n. split; [exact Hle|]. split; [exact Hn|].
  rewrite Hn. apply (NoDup_map_inv recordPosition). rewrite map_map.
  apply increasing_NoDup. apply (offsets_increasing n 0).
Qed.

(** X8.  A fetch returns only after an empty page: when it returns a list,
    the server answered the requests before the last with non-empty
    pages and the last one with an empty page, and the list is those
    pages joined in order. *)
Theorem fetch_meeting_records_returned
    (fuel : nat) (net : network) (s e : string) (records : list json) :
  outcome (fetch_meeting_records fuel net s e) = Some (Ok records) ->
  exists pages,
    (List.length pages < fuel)%nat /\
    serves net s e pages /\
    delivers net s e (List.length pages) [] /\
    records = List.concat pages /\
    sent (fetch_meeting_records fuel net s e) = queries s e (S (List.length pages)).
Proof.
  unfold fetch_meeting_records. change 1 with (offset 0). intros H.
  destruct (fetch_loop_ended net s e fuel 0 [] _ H)
    as (pages & Hlen & Hpages & Hsent & Hend).
  exists pages. split; [exact Hlen|].
  split; [apply serves_fetch_page; exact Hpages|].
  destruct Hend as [[Hlast Hres]|(err & _ & Habs)]; [|discriminate].
  split; [apply delivers_fetch_page; exact Hlast|].
  split; [now injection Hres as -> | exact Hsent].
Qed.

Lemma fetch_meeting_records_returned_witness :
  exists pages,
    (List.length pages < 5)%nat /\
    serves net_single_record "2023-01-01" "2023-12-31" pages /\
    delivers net_single_record "2023-01-01" "2023-12-31" (List.length pages) [] /\
    [meeting (JInt 210) (JStr "2023-01-23")] = List.concat pages /\
    sent (fetch_meeting_records 5 net_single_record "2023-01-01" "2023-12-31")
    = queries "2023-01-01" "2023-12-31" (S (List.length pages)).
Proof.
  apply (fetch_meeting_records_returned 5 net_single_record
           "2023-01-01" "2023-12-31" [meeting (JInt 210) (JStr "2023-01-23")]).
  reflexivity.
Defined.

(** X9.  After any number of good pages, a request that [requests] gives up
    on (time-out, no connection) and a 200 whose body is not JSON each end
    the fetch at once with the exception of the library: that request is
    the last one sent, and no record reaches the caller. *)
Theorem fetch_meeting_records_library_errors
    (net : network) (s e : string) (pages : list (list json)) (fuel : nat) :
  (List.length pages < fuel)%nat ->
  serves net s e pages ->
  (net (objParams s e (offset (List.length pages))) = None ->
   fetch_meeting_records fuel net s e
   = mkrun (queries s e (S (List.length pages))) (Some (Raise RequestException))) /\
  (net (objParams s e (offset (List.length pages))) = Some (mkresponse 200 None) ->
   fetch_meeting_records fuel net s e
   = mkrun (queries s e (S (List.length pages))) (Some (Raise JSONDecodeError))).
Proof.
  intros Hlen Hserves. split; intros Hnet.
  - rewrite (fetch_run net s e pages fuel (Raise RequestException) Hserves Hlen);
      [reflexivity | | right; eauto].
    unfold fetch_page, requests_get. now rewrite Hnet.
  - rewrite (fetch_run net s e pages fuel (Raise JSONDecodeError) Hserves Hlen);
      [reflexivity | | right; eauto].
    unfold fetch_page, requests_get. now rewrite Hnet.
Qed.

Lemma fetch_meeting_records_library_errors_witness :
  fetch_meeting_records 5 net_timeout_second "2023-01-01" "2023-12-31"
  = mkrun (queries "2023-01-01" "2023-12-31" 2) (Some (Raise RequestException)) /\
  fetch_meeting_records 5 net_not_json "2023-01-01" "2023-12-31"
  = mkrun (queries "2023-01-01" "2023-12-31" 1) (Some (Raise JSONDecodeError)).
Proof.
  split.
  - apply (proj1 (fetch_meeting_records_library_errors
                    net_timeout_second "2023-01-01" "2023-12-31"
                    [[meeting (JInt 210) (JStr "2023-01-23")]] 5
                    ltac:(simpl; lia)
                    ltac:(intros [|[|i]] p H; simpl in H; try discriminate H;
                          injection H as <-;
                          split; [exists [("meetingRecord",
                                           JList [meeting (JInt 210) (JStr "2023-01-23")])];
                                  split; reflexivity | discriminate]))).
    reflexivity.
  - apply (proj2 (fetch_meeting_records_library_errors
                    net_not_json "2023-01-01" "2023-12-31" [] 5
                    ltac:(simpl; lia)
                    ltac:(intros [|i] p H; discriminate H))).
    reflexivity.
Defined.

(** X10.  A 200 whose JSON is not an object never gives a page.  The fetch
    raises the [ValueError] of a missing ["meetingRecord"] when [in]
    answers no (a list without that string, a string without that text),
    and a [TypeError] otherwise: from [in] itself on [null], a number or a
    boolean, from the subscript on a list or a string that holds the
    word. *)
Theorem fetch_meeting_records_non_object_body
    (net : network) (s e : string) (pages : list (list json)) (fuel : nat)
    (objJson : json) :
  (List.length pages < fuel)%nat ->
  serves net s e pages ->
  net (objParams s e (offset (List.length pages)))
  = Some (mkresponse 200 (Some objJson)) ->
  (forall members, objJson <> JObj members) ->
  fetch_meeting_records fuel net s e
  = mkrun (queries s e (S (List.length pages)))
      (Some (Raise (match py_contains "meetingRecord" objJson with
                    | Ok false => ValueError_meetingRecord_missing
                    | _ => TypeError
                    end))).
Proof.
  intros Hlen Hserves Hnet Hobj.
  rewrite (fetch_run net s e pages fuel
             (Raise (match py_contains "meetingRecord" objJson with
                     | Ok false => ValueError_meetingRecord_missing
                     | _ => TypeError
                     end)) Hserves Hlen);
    [reflexivity | | right; eauto].
  unfold fetch_page, requests_get. rewrite Hnet. simpl.
  unfold page_records, response_json. simpl.
  destruct objJson as [| | | | str|items|members]; simpl; try reflexivity.
  - now destruct (is_substring "meetingRecord" str).
  - now destruct (existsb (json_is_str "meetingRecord") items).
  - exfalso. now apply (Hobj members).
Qed.

Lemma fetch_meeting_records_non_object_body_witness :
  fetch_meeting_records 5 net_null "2023-01-01" "2023-12-31"
  = mkrun (queries "2023-01-01" "2023-12-31" 1) (Some (Raise TypeError)).
Proof.
  apply (fetch_meeting_records_non_object_body
           net_null "2023-01-01" "2023-12-31" [] 5 JNull).
  - simpl. lia.
  - intros [|i] p H; discriminate H.
  - reflexivity.
  - intros members H. discriminate H.
Defined.

Lemma fetch_loop_endless (net : network) (s e : string) (fuel : nat) :
  (forall i, exists p, fetch_page net s e (offset i) = Ok p /\ p <> []) ->
  forall i0 acc,
    fetch_loop fuel net s e (offset i0) acc
    = mkrun (map (fun i => objParams s e (offset i)) (seq i0 fuel)) None.
Proof.
  intros H. induction fuel as [|fuel IH]; intros i0 acc; simpl; [reflexivity|].
  destruct (H i0) as (p & -> & Hne). destruct p as [|x p]; [congruence|].
  rewrite <- offset_S, IH. reflexivity.
Qed.

(** X11.  The loop has no bound of its own: against a server that answers
    every offset with a non-empty page the fetch never returns; after any
    number of iterations it is still running and has sent that many
    requests. *)
Theorem fetch_meeting_records_endless (net : network) (s e : string) (fuel : nat) :
  (forall i, exists p, delivers net s e i p /\ p <> []) ->
  fetch_meeting_records fuel net s e = mkrun (queries s e fuel) None.
Proof.
  intros H. unfold fetch_meeting_records, queries. change 1 with (offset 0).
  apply fetch_loop_endless. intros i. destruct (H i) as (p & Hp & Hne).
  exists p. split; [now apply delivers_fetch_page | exact Hne].
Qed.

Lemma fetch_meeting_records_endless_witness :
  fetch_meeting_records 7 net_endless "2023-01-01" "2023-12-31"
  = mkrun (queries "2023-01-01" "2023-12-31" 7) None.
Proof.
  apply (fetch_meeting_records_endless net_endless "2023-01-01" "2023-12-31" 7).
  intros i. exists [meeting (JInt 210) (JStr "2023-01-23")].
  split; [|discriminate].
  exists [("meetingRecord", JList [meeting (JInt 210) (JStr "2023-01-23")])].
  split; reflexivity.
Defined.

(** ** The text of the output file *)

Lemma uint_plain (d : Decimal.uint) :
  existsb is_csv_special (list_ascii_of_string (NilEmpty.string_of_uint d)) = false.
Proof. induction d; simpl; auto. Qed.

Lemma py_str_int_plain (n : Z) :
  existsb is_csv_special (list_ascii_of_string (py_str_int n)) = false.
Proof.
  unfold py_str_int. destruct (Z.to_int n) as [d|d]; simpl;
    destruct d; simpl; auto using uint_plain.
Qed.

Lemma digit_char_plain (x : Z) : is_csv_special (digit_char x) = false.
Proof.
  unfold digit_char.
  assert (H : 0 <= x mod 10 < 10) by (apply Z.mod_pos_bound; lia).
  remember (x mod 10) as r eqn:Er. clear Er.
  assert (Hr : r = 0 \/ r = 1 \/ r = 2 \/ r = 3 \/ r = 4 \/
               r = 5 \/ r = 6 \/ r = 7 \/ r = 8 \/ r = 9) by lia.
  repeat (destruct Hr as [->|Hr]; [reflexivity|]). subst r. reflexivity.
Qed.

Lemma isoformat_plain (d : date) :
  existsb is_csv_special (list_ascii_of_string (isoformat d)) = false.
Proof.
  unfold isoformat. rewrite list_ascii_of_string_of_list_ascii.
  cbn [existsb]. rewrite !digit_char_plain. reflexivity.
Qed.

Lemma csv_field_plain (s : string) :
  existsb is_csv_special (list_ascii_of_string s) = false ->
  csv_field s = list_ascii_of_string s.
Proof. intros H. unfold csv_field. now rewrite H. Qed.

Lemma writerow_entry (item : Z * date_range) :
  writerow (data_row (session_entry item)) = plain_line (session_entry item).
Proof.
  unfold writerow, data_row, plain_line, session_entry. cbn [map iSession pszStartDate pszEndDate].
  rewrite (csv_field_plain _ (py_str_int_plain _)).
  rewrite !(csv_field_plain _ (isoformat_plain _)).
  f_equal. cbn [csv_join].
  rewrite <- app_assoc, <- app_comm_cons, <- app_assoc, <- app_comm_cons.
  reflexivity.
Qed.



(** ** The arguments *)

Lemma py_or_no_flag (x : option string) (pszDefault : string) :
  no_date_flag x -> py_or x pszDefault = pszDefault.
Proof. intros [->| ->]; reflexivity. Qed.

Lemma py_or_given (s pszDefault : string) :
  s <> EmptyString -> py_or (Some s) pszDefault = s.
Proof. destruct s; [congruence | reflexivity]. Qed.

Lemma date_of_isoformat_not_empty (s : string) (d : date) :
  date_of_isoformat s = Some d -> s <> EmptyString.
Proof. intros H ->. discriminate H. Qed.

(** X15.  A flag that is absent and a flag that is given empty are the same
    to [parse_arguments]: with neither date given that way, the range is
    the thirty days that end today. *)
Theorem parse_arguments_default_window
    (pszStartDateArg pszEndDateArg : option string)
    (objToday objDefaultStartDate : date) :
  valid_date objToday = true ->
  date_minus_days 30 objToday = Ok objDefaultStartDate ->
  no_date_flag pszStartDateArg ->
  no_date_flag pszEndDateArg ->
  parse_arguments pszStartDateArg pszEndDateArg objToday
  = Ok (objDefaultStartDate, objToday).
Proof.
  intros Hv Hm H1 H2. unfold parse_arguments. rewrite Hm. cbn [bind].
  rewrite (py_or_no_flag _ _ H1), (py_or_no_flag _ _ H2).
  unfold fromisoformat_str.
  rewrite (date_of_isoformat_isoformat _ (date_minus_days_valid _ _ _ Hv Hm)).
  cbn [bind]. now rewrite (date_of_isoformat_isoformat _ Hv).
Qed.

Lemma parse_arguments_default_window_witness :
  parse_arguments (Some EmptyString) None today_sample
  = Ok (mkdate 2026 10 5, today_sample).
Proof.
  apply (parse_arguments_default_window (Some EmptyString) None
           today_sample (mkdate 2026 10 5)).
  - reflexivity.
  - reflexivity.
  - right. reflexivity.
  - left. reflexivity.
Defined.

(** X16.  Two flags that are texts of dates give those two dates, in the
    order given and with no test that the first is not after the second,
    and every request of the run carries the [isoformat] text of those
    dates as [startDate] and [endDate]. *)
Theorem main_flags_reach_the_queries
    (pszStart pszEnd : string) (objToday objDefaultStartDate objStartDate objEndDate : date)
    (fuel : nat) (net : network) (fs : file_system) :
  date_minus_days 30 objToday = Ok objDefaultStartDate ->
  date_of_isoformat pszStart = Some objStartDate ->
  date_of_isoformat pszEnd = Some objEndDate ->
  parse_arguments (Some pszStart) (Some pszEnd) objToday
  = Ok (objStartDate, objEndDate) /\
  forall q,
    In q (script_sent (main (Some pszStart) (Some pszEnd) objToday fuel net fs)) ->
    startDate q = isoformat objStartDate /\ endDate q = isoformat objEndDate.
Proof.
  intros Hm Hs He.
  assert (Hparse : parse_arguments (Some pszStart) (Some pszEnd) objToday
                   = Ok (objStartDate, objEndDate)).
  { unfold parse_arguments. rewrite Hm. cbn [bind].
    rewrite (py_or_given _ _ (date_of_isoformat_not_empty _ _ Hs)).
    rewrite (py_or_given _ _ (date_of_isoformat_not_empty _ _ He)).
    unfold fromisoformat_str. rewrite Hs. cbn [bind]. now rewrite He. }
  split; [exact Hparse|].
  intros q Hq.
  assert (Hsent : In q (sent (fetch_meeting_records fuel net
                                (isoformat objStartDate) (isoformat objEndDate)))).
  { unfold main in Hq. rewrite Hparse in Hq.
    destruct (outcome (fetch_meeting_records fuel net
                         (isoformat objStartDate) (isoformat objEndDate)))
      as [[records|err]|]; try exact Hq.
    destruct (aggregate_sessions records); exact Hq. }
  unfold fetch_meeting_records in Hsent.
  destruct (fetch_loop_sent_bound net (isoformat objStartDate) (isoformat objEndDate)
              fuel 0 []) as (n & _ & Hn).
  change (offset 0) with 1 in Hn. rewrite Hn in Hsent.
  apply in_map_iff in Hsent. destruct Hsent as (i & <- & _). split; reflexivity.
Qed.

Lemma main_flags_reach_the_queries_witness :
  parse_arguments (Some "2023-12-31") (Some "2023-01-01") today_sample
  = Ok (mkdate 2023 12 31, mkdate 2023 1 1) /\
  forall q,
    In q (script_sent
            (main (Some "2023-12-31") (Some "2023-01-01") today_sample 5
               net_single_record fs_empty)) ->
    startDate q = isoformat (mkdate 2023 12 31) /\
    endDate q = isoformat (mkdate 2023 1 1).
Proof.
  apply (main_flags_reach_the_queries "2023-12-31" "2023-01-01"
           today_sample (mkdate 2026 10 5) (mkdate 2023 12 31) (mkdate 2023 1 1)
           5 net_single_record fs_empty); reflexivity.
Defined.







(** ** The whole run *)

(** X18.  The script from end to end.  With arguments that parse, a server
    that sends non-empty pages and then an empty one, records that are
    each an object with a ["session"] that [int()] reads and a ["date"]
    YYYY-MM-DD of the calendar, and an output path on which the write goes
    through, the run ends without exception after one request per page
    and one for the empty page.  The output file then holds the header
    line followed by one unquoted line per item of a list [rows] that has
    exactly one item per session number of the fetched records, from the
    least to the greatest date of that session, the greatest session
    number first. *)
Theorem main_end_to_end
    (pszStartDateArg pszEndDateArg : option string)
    (objToday objStartDate objEndDate : date)
    (fuel : nat) (net : network) (fs : file_system) (pages : list (list json)) :
  parse_arguments pszStartDateArg pszEndDateArg objToday
  = Ok (objStartDate, objEndDate) ->
  serves net (isoformat objStartDate) (isoformat objEndDate) pages ->
  delivers net (isoformat objStartDate) (isoformat objEndDate) (List.length pages) [] ->
  (List.length pages < fuel)%nat ->
  Forall readable_record (List.concat pages) ->
  fs_writable fs pszOutputFile = true ->
  exists rows,
    one_range_per_session (List.concat pages) rows /\
    strictly_descending rows /\
    main pszStartDateArg pszEndDateArg objToday fuel net fs
    = mkscript
        (queries (isoformat objStartDate) (isoformat objEndDate) (S (List.length pages)))
        (fs_store pszOutputFile
           (header_line ++ String.concat EmptyString (map plain_line rows)) fs)
        (Some (Ok tt)).
Proof.
  intros Hargs Hserves Hlast Hfuel Hread Hw.
  apply delivers_fetch_page in Hlast.
  destruct (aggregate_sessions_ranges _ Hread) as (rows & Hagg & Hsorted & Hspec).
  exists rows. split; [exact Hspec|]. split; [exact Hsorted|].
  unfold main. rewrite Hargs.
  rewrite (fetch_run net _ _ pages fuel (Ok []) Hserves Hfuel Hlast (or_introl eq_refl)).
  cbn [outcome sent]. rewrite Hagg. unfold write_tsv. rewrite Hw.
  cbn [fst snd]. f_equal. f_equal.
  rewrite aggregate_sessions_read in Hagg.
  destruct (read_records (List.concat pages)) as [xs|err]; simpl in Hagg;
    [|discriminate].
  injection Hagg as <-. unfold tsv_text.
  rewrite (map_ext_in (fun r => writerow (data_row r)) plain_line).
  - reflexivity.
  - intros row Hrow.
    apply (Permutation_in _ (sorted_desc_perm _)) in Hrow.
    apply in_map_iff in Hrow. destruct Hrow as (item & <- & _).
    apply writerow_entry.
Qed.

Lemma main_end_to_end_witness :
  main None None today_sample 5 net_single_record fs_with_old_output
  = mkscript
      (queries "2026-10-05" "2026-11-04" 2)
      (fs_store pszOutputFile
         (header_line ++ plain_line (mkrow 210 "2023-01-23" "2023-01-23"))
         fs_with_old_output)
      (Some (Ok tt)) /\
  one_range_per_session
    [meeting (JInt 210) (JStr "2023-01-23")]
    [mkrow 210 "2023-01-23" "2023-01-23"].
Proof.
  destruct (main_end_to_end None None today_sample (mkdate 2026 10 5) today_sample
              5 net_single_record fs_with_old_output
              [[meeting (JInt 210) (JStr "2023-01-23")]])
    as (rows & Hspec & _ & Hmain).
  - reflexivity.
  - intros [|[|i]] p H; simpl in H; try discriminate H.
    injection H as <-. split; [|discriminate].
    exists [("meetingRecord", JList [meeting (JInt 210) (JStr "2023-01-23")])].
    split; reflexivity.
  - exists [("meetingRecord", JList [])]. split; reflexivity.
  - simpl. lia.
  - repeat constructor.
    apply (meeting_readable (JInt 210) "2023-01-23" 210 (mkdate 2023 1 23)); reflexivity.
  - reflexivity.
  - assert (Hrows : rows = [mkrow 210 "2023-01-23" "2023-01-23"]).
    { destruct Hspec as (Hnd & Hkeys & Hrow).
      destruct rows as [|r1 [|r2 rest]].
      - exfalso.
        apply (proj2 (Hkeys 210)).
        exists (meeting (JInt 210) (JStr "2023-01-23")), (mkdate 2023 1 23).
        split; [now left|].
        exists [("session", JInt 210); ("date", JStr "2023-01-23")],
          (JInt 210), "2023-01-23". repeat split.
      - f_equal.
        destruct (Hrow r1 (or_introl eq_refl))
          as (ds & de & Hs & He & (rs & [<-|[]] & Hrs) & (re & [<-|[]] & Hre) & _).
        destruct (proj1 (Hkeys (iSession r1)) (or_introl eq_refl))
          as (rk & dk & [<-|[]] & Hk).
        destruct Hrs as (m1 & v1 & p1 & E1 & S1 & D1 & I1 & P1).
        destruct Hre as (m2 & v2 & p2 & E2 & S2 & D2 & I2 & P2).
        injection E1 as <-. injection E2 as <-.
        simpl in S1, D1, S2, D2.
        injection S1 as <-. injection D1 as <-.
        injection S2 as <-. injection D2 as <-.
        simpl in I1. injection I1 as I1.
        change (date_of_isoformat "2023-01-23") with (Some (mkdate 2023 1 23)) in P1, P2.
        injection P1 as <-. injection P2 as <-.
        destruct r1 as [k s e]. simpl in *. subst. reflexivity.
      - exfalso. simpl in Hnd.
        assert (H1 : iSession r1 = 210).
        { destruct (proj1 (Hkeys (iSession r1)) (or_introl eq_refl))
            as (rk & dk & [<-|[]] & (m1 & v1 & p1 & E1 & S1 & _ & I1 & _)).
          injection E1 as <-. simpl in S1. injection S1 as <-.
          simpl in I1. now injection I1. }
        assert (H2 : iSession r2 = 210).
        { destruct (proj1 (Hkeys (iSession r2)) (or_intror (or_introl eq_refl)))
            as (rk & dk & [<-|[]] & (m1 & v1 & p1 & E1 & S1 & _ & I1 & _)).
          injection E1 as <-. simpl in S1. injection S1 as <-.
          simpl in I1. now injection I1. }
        inversion Hnd as [|? ? Hnotin _]; subst. apply Hnotin. left. congruence. }
    subst rows. split; [exact Hmain | exact Hspec].
Defined.
